(** * NotebookML: the metadata access layer of [notebookml/db.py]

    A shallow embedding of [src/notebookml/db.py]: the pydantic metadata
    records ([MetaData], [EntityMeta], [SourceMeta], [DataMeta], [Data]),
    the flatten / reconstruct codec built from [FlatDict] and [unflatten],
    the identifier [meta_identifier], and the [VectorDatabase] facade over a
    chromadb client.

    Conventions.
    - A Python [str] is a Rocq [string] holding its UTF-8 bytes, so
      [.encode("utf-8")] is the identity on the representation.
    - A Python [float] is a binary64 value ([PrimFloat.float]).
    - A Python [dict] is an association list in insertion order.
    - An exception is a value of [exn]; fallible code returns [result].

    The libraries the program calls are modelled on the inputs the program
    gives them; each model says what it leaves out.  The configuration
    classes and the factory methods ([DBConfig], [PersistentConfig],
    [persistant], [from_config], [IMPL]) build the client and are not
    part of the development. *)

From Stdlib Require Import ZArith List String Ascii Bool Lia Floats.
Import ListNotations.
Set Warnings "-register-all".
Local Open Scope string_scope.
Local Open Scope list_scope.
Local Open Scope Z_scope.

(** ** Python values, exceptions *)

Module Py.

(** The exceptions this program can raise or let through. *)
Inductive exn :=
| ValueError (msg : string)
| OverflowError (msg : string)
| IndexError (msg : string)
| KeyError (key : string)
| ValidationError (errors : list (list string * string)).

Inductive result (A : Type) :=
| Ok (a : A)
| Raise (e : exn).
Arguments Ok {A} a.
Arguments Raise {A} e.

Definition bind {A B} (r : result A) (k : A -> result B) : result B :=
  match r with
  | Ok a => k a
  | Raise e => Raise e
  end.

(** [[f(x) for x in xs]] where [f] may raise: the first exception wins. *)
Fixpoint traverse {A B} (f : A -> result B) (xs : list A) : result (list B) :=
  match xs with
  | [] => Ok []
  | x :: xs' =>
      match f x with
      | Ok y =>
          match traverse f xs' with
          | Ok ys => Ok (y :: ys)
          | Raise e => Raise e
          end
      | Raise e => Raise e
      end
  end.

End Py.
Export Py.

Declare Scope py_scope.
Notation "x <- c ;; k" := (bind c (fun x => k))
  (at level 61, c at next level, right associativity) : py_scope.
Local Open Scope py_scope.

(** ** [datetime] *)

Module Datetime.

(** A [datetime.datetime].  [wall] counts the microseconds from
    1970-01-01T00:00:00 to the value's own calendar fields (year, month,
    day, hour, minute, second, microsecond), read without any time zone;
    the calendar fields and [wall] determine each other.  [fold] is the
    [fold] attribute.  [tzinfo] is [None] for a naive value and
    [Some off] for an aware one whose [utcoffset()] is [off]
    microseconds. *)
Record datetime := mkdt {
  wall : Z;
  fold : bool;
  tzinfo : option Z
}.

Definition us_per_second : Z := 1000000.

(** 0001-01-01T00:00:00 and 9999-12-31T23:59:59 in wall-clock seconds:
    [datetime.min] and [datetime.max] without their microseconds. *)
Definition min_seconds : Z := -62135596800.
Definition max_seconds : Z := 253402300799.

(** [a == b] on datetimes: naive values compare their calendar fields
    ([fold] is ignored), aware values compare the instants they denote,
    and a naive value never equals an aware one. *)
Definition dt_eq (a b : datetime) : bool :=
  match tzinfo a, tzinfo b with
  | None, None => wall a =? wall b
  | Some oa, Some ob => wall a - oa =? wall b - ob
  | _, _ => false
  end.

(** *** binary64 arithmetic *)

(** An integer converted to [float]: rounded to nearest, ties to even. *)
Definition float_of_Z (z : Z) : float :=
  SF2Prim (binary_normalize prec emax z 0 false).

(** [a / b] on Python integers with [0 < b]: the quotient of the two
    integers rounded once, to nearest with ties to even.  The quotient is
    taken with at least 55 significant bits and a sticky bit below them. *)
Definition int_true_divide (a b : Z) : float :=
  let n := Z.abs a in
  let k := Z.max 0 (56 + Z.log2 b - Z.log2 n) in
  let q := Z.shiftl n k / b in
  let sticky := if Z.shiftl n k mod b =? 0 then 0 else 1 in
  let m := 2 * q + sticky in
  SF2Prim (binary_normalize prec emax (if a <? 0 then - m else m) (- k - 1) false).

(** The value of a finite float as [m * 2^e]. *)
Definition float_parts (f : float) : option (Z * Z) :=
  match Prim2SF f with
  | S754_zero _ => Some (0, 0)
  | S754_finite s m e => Some (if s then Z.neg m else Z.pos m, e)
  | _ => None
  end.

(** [math.trunc] of [m * 2^e]. *)
Definition trunc_parts (m e : Z) : Z :=
  if 0 <=? e then m * 2 ^ e else Z.quot m (2 ^ (- e)).

(** [round(x)] of Python, on [m * 2^e]: to nearest, ties to even. *)
Definition round_half_even_parts (m e : Z) : Z :=
  if 0 <=? e then m * 2 ^ e
  else
    let d := 2 ^ (- e) in
    let q := m / d in
    let r := m mod d in
    if 2 * r <? d then q
    else if d <? 2 * r then q + 1
    else if Z.even q then q else q + 1.

Section Platform.

(** The platform's [time.localtime], on whole seconds: the local
    wall-clock reading (seconds from 1970-01-01T00:00:00 of the local
    calendar fields) of the POSIX time [u]. *)
Variable local : Z -> Z.

Definition max_fold_seconds : Z := 24 * 3600.

(** [datetime._mktime]: the POSIX time of a naive value's calendar
    seconds [t], solving [t = local u] for [u]. *)
Definition mktime (t : Z) (fold : bool) : Z :=
  let a := local t - t in
  let u1 := t - a in
  let t1 := local u1 in
  let b :=
    if t1 =? t
    then
      let u2 := if fold then u1 + max_fold_seconds else u1 - max_fold_seconds in
      local u2 - u2
    else t1 - u1 in
  if (t1 =? t) && (a =? b) then u1
  else
    let u2 := t - b in
    let t2 := local u2 in
    if t2 =? t then u2
    else if t1 =? t then u1
    else if fold then Z.min u1 u2 else Z.max u1 u2.

(** [datetime.timestamp()]. *)
Definition timestamp (d : datetime) : float :=
  match tzinfo d with
  | None =>
      let s := mktime (wall d / us_per_second) (fold d) in
      (float_of_Z s + float_of_Z (wall d mod us_per_second) / 1e6)%float
  | Some off => int_true_divide (wall d - off) us_per_second
  end.

(** [datetime.fromtimestamp(t)] with no [tz]: a naive value in local
    time. *)
Definition fromtimestamp (t : float) : result datetime :=
  match float_parts t with
  | None =>
      if PrimFloat.is_nan t
      then Raise (ValueError "Invalid value NaN (not a number)")
      else Raise (OverflowError "timestamp out of range for platform time_t")
  | Some (m, e) =>
      let intpart := trunc_parts m e in
      if (intpart <? - 2 ^ 63) || (2 ^ 63 <=? intpart)
      then Raise (OverflowError "timestamp out of range for platform time_t")
      else
      let frac := (t - float_of_Z intpart)%float in
      let us :=
        match float_parts (frac * 1e6)%float with
        | Some (m', e') => round_half_even_parts m' e'
        | None => 0
        end in
      let '(secs, us) :=
        if us_per_second <=? us then (intpart + 1, us - us_per_second)
        else if us <? 0 then (intpart - 1, us + us_per_second)
        else (intpart, us) in
      let w := local secs in
      if (min_seconds <=? w) && (w <=? max_seconds)
      then
        let probe1 := local (secs - max_fold_seconds) in
        let trans := w - probe1 - max_fold_seconds in
        let fold :=
          if trans <? 0 then local (secs + trans) =? w else false in
        Ok (mkdt (w * us_per_second + us) fold None)
      else Raise (ValueError "year is out of range")
  end.

End Platform.

End Datetime.
Export Datetime.

(** ** Dynamic values *)

Module Value.

(** The Python objects that reach this program's validators and the
    engine's metadata: [None], [bool], [int], [float], [str], [datetime]
    and string-keyed [dict].  A record passed as the value of a field is
    not among them: nested records reach validation as mappings, the way
    [unflatten] delivers them. *)
Inductive pyval :=
| PNone
| PBool (b : bool)
| PInt (z : Z)
| PFloat (f : float)
| PStr (s : string)
| PDatetime (d : datetime)
| PDict (items : list (string * pyval)).

Definition pydict := list (string * pyval).

(** [d.get(k)]. *)
Fixpoint dict_get (k : string) (d : pydict) : option pyval :=
  match d with
  | [] => None
  | (k', v) :: d' => if String.eqb k k' then Some v else dict_get k d'
  end.

Definition keys (d : pydict) : list string := map fst d.

End Value.
Export Value.

(** ** The platform *)

(** What the program takes from its environment and libraries without this
    development fixing it: the local time zone, pydantic's conversion of an
    input that is neither a [datetime] nor a [float] into a [datetime] (ISO
    8601 strings, integer Unix times), and the JSON serializer's decimal
    rendering of a [float]. *)
Class Platform := {
  localtime : Z -> Z;
  coerce_datetime : pyval -> option datetime;
  json_float : float -> string
}.

(** ** JSON text *)

Module Json.

Definition dquote : ascii := ascii_of_nat 34.
Definition backslash : ascii := ascii_of_nat 92.

Definition hex_digit (n : nat) : ascii :=
  nth n (list_ascii_of_string "0123456789abcdef") "0"%char.

(** One character of a string literal: the quote, the backslash and the
    control characters are escaped, every other byte is written as it
    is. *)
Definition escape_char (c : ascii) : string :=
  let n := nat_of_ascii c in
  if Nat.eqb n 34 then String backslash (String dquote "")
  else if Nat.eqb n 92 then String backslash (String backslash "")
  else if Nat.eqb n 8 then String backslash "b"
  else if Nat.eqb n 9 then String backslash "t"
  else if Nat.eqb n 10 then String backslash "n"
  else if Nat.eqb n 12 then String backslash "f"
  else if Nat.eqb n 13 then String backslash "r"
  else if Nat.ltb n 32
       then String backslash
              ("u00" ++ String (hex_digit (Nat.div n 16))
                          (String (hex_digit (Nat.modulo n 16)) ""))
  else String c "".

Fixpoint escape (s : string) : string :=
  match s with
  | EmptyString => ""
  | String c s' => escape_char c ++ escape s'
  end.

Definition json_str (s : string) : string :=
  String dquote (escape s ++ String dquote "").

Definition json_optional_str (o : option string) : string :=
  match o with
  | Some s => json_str s
  | None => "null"
  end.

(** One member of an object: ["key":value]. *)
Definition member (key value : string) : string :=
  json_str key ++ ":" ++ value.

Fixpoint join (sep : string) (parts : list string) : string :=
  match parts with
  | [] => ""
  | [x] => x
  | x :: rest => x ++ sep ++ join sep rest
  end.

(** An object, compact: no white space, members in the order given. *)
Definition object (members : list (string * string)) : string :=
  "{" ++ join "," (map (fun kv => member (fst kv) (snd kv)) members) ++ "}".

End Json.

(** ** pydantic field validation *)

Module Pydantic.

Definition line_errors {A} (errs : list (list string * string)) : result A :=
  Raise (ValidationError errs).

(** A [ValueError] raised inside a validator becomes a line error of the
    [ValidationError]; any other exception leaves the validation. *)
Definition in_validator {A} (r : result A) : result A :=
  match r with
  | Raise (ValueError _) => line_errors [([], "value_error")]
  | _ => r
  end.

(** The errors of a field are reported under the field's name. *)
Definition at_loc {A} (name : string) (r : result A) : result A :=
  match r with
  | Raise (ValidationError errs) =>
      line_errors (map (fun e => (name :: fst e, snd e)) errs)
  | _ => r
  end.

(** [Field(...)]: a required field. *)
Definition required {A} (name : string) (validate : pyval -> result A)
    (data : pydict) : result A :=
  match dict_get name data with
  | Some v => at_loc name (validate v)
  | None => line_errors [([name], "missing")]
  end.

(** [Field(default)]: the default is taken, unvalidated, when the key is
    absent. *)
Definition with_default {A} (name : string) (default : A)
    (validate : pyval -> result A) (data : pydict) : result A :=
  match dict_get name data with
  | Some v => at_loc name (validate v)
  | None => Ok default
  end.

(** Fields are validated in declaration order; line errors accumulate
    and an exception ends the validation where it is raised. *)
Definition ap {A B} (rf : result (A -> B)) (ra : result A) : result B :=
  match rf, ra with
  | Ok f, Ok a => Ok (f a)
  | Ok _, Raise e => Raise e
  | Raise (ValidationError e1), Ok _ => Raise (ValidationError e1)
  | Raise (ValidationError e1), Raise (ValidationError e2) =>
      Raise (ValidationError (e1 ++ e2))
  | Raise (ValidationError _), Raise e => Raise e
  | Raise e, _ => Raise e
  end.

(** A [str] field: only a [str] is accepted. *)
Definition str_validator (v : pyval) : result string :=
  match v with
  | PStr s => Ok s
  | _ => line_errors [([], "string_type")]
  end.

(** An [Optional[str]] field. *)
Definition optional_str_validator (v : pyval) : result (option string) :=
  match v with
  | PNone => Ok None
  | PStr s => Ok (Some s)
  | _ => line_errors [([], "string_type")]
  end.

Definition optional_str_dump (o : option string) : pyval :=
  match o with
  | Some s => PStr s
  | None => PNone
  end.

Definition option_eqb (a b : option string) : bool :=
  match a, b with
  | Some x, Some y => String.eqb x y
  | None, None => true
  | _, _ => false
  end.

End Pydantic.
Import Pydantic.

Notation "f <*> a" := (ap f a) (at level 50, left associativity) : py_scope.

(** ** The metadata records *)

(** [class MetaData(ABC, BaseModel)]. *)
Module MetaData.

Record t := mk { created_datetime : datetime }.

Section Methods.
Context {P : Platform}.

(** [@field_serializer('created_datetime')]. *)
Definition serialize_dt (dt : datetime) : float := timestamp localtime dt.

(** [@field_validator("created_datetime", mode="before")]. *)
Definition validate_dt (v : pyval) : result pyval :=
  match v with
  | PFloat f => d <- fromtimestamp localtime f ;; Ok (PDatetime d)
  | _ => Ok v
  end.

(** The [created_datetime: datetime] field: [validate_dt], then
    pydantic's own [datetime] validation of what it returned. *)
Definition datetime_validator (v : pyval) : result datetime :=
  v' <- in_validator (validate_dt v) ;;
  match v' with
  | PDatetime d => Ok d
  | _ =>
      match coerce_datetime v' with
      | Some d => Ok d
      | None => line_errors [([], "datetime_type")]
      end
  end.

Definition validate_fields (data : pydict) : result t :=
  Ok mk <*> required "created_datetime" datetime_validator data.

Definition model_validate (obj : pyval) : result t :=
  match obj with
  | PDict data => validate_fields data
  | _ => line_errors [([], "model_type")]
  end.

Definition model_dump (m : t) : pydict :=
  [("created_datetime", PFloat (serialize_dt (created_datetime m)))].

Definition model_dump_json (m : t) : string :=
  Json.object
    [("created_datetime", json_float (serialize_dt (created_datetime m)))].

End Methods.

(** [a == b]. *)
Definition eqb (a b : t) : bool :=
  dt_eq (created_datetime a) (created_datetime b).

End MetaData.

(** [class EntityMeta(MetaData)]. *)
Module EntityMeta.

Record t := mk {
  created_datetime : datetime;
  type : string;
  name : option string;
  id : string
}.

(** The [enum=[...]] keyword of the [type] field. *)
Definition type_enum : list string := ["undef"; "user"; "agent"].

Section Methods.
Context {P : Platform}.

Definition validate_fields (data : pydict) : result t :=
  Ok mk
    <*> required "created_datetime" MetaData.datetime_validator data
    <*> required "type" str_validator data
    <*> with_default "name" (Some "") optional_str_validator data
    <*> required "id" str_validator data.

Definition model_validate (obj : pyval) : result t :=
  match obj with
  | PDict data => validate_fields data
  | _ => line_errors [([], "model_type")]
  end.

Definition model_dump (m : t) : pydict :=
  [("created_datetime", PFloat (MetaData.serialize_dt (created_datetime m)));
   ("type", PStr (type m));
   ("name", optional_str_dump (name m));
   ("id", PStr (id m))].

Definition model_dump_json (m : t) : string :=
  Json.object
    [("created_datetime", json_float (MetaData.serialize_dt (created_datetime m)));
     ("type", Json.json_str (type m));
     ("name", Json.json_optional_str (name m));
     ("id", Json.json_str (id m))].

End Methods.

Definition eqb (a b : t) : bool :=
  dt_eq (created_datetime a) (created_datetime b)
  && String.eqb (type a) (type b)
  && option_eqb (name a) (name b)
  && String.eqb (id a) (id b).

End EntityMeta.

(** [NULL_ENTITY]: 2000-01-01 00:00:00 is 946684800 seconds after
    1970-01-01 00:00:00. *)
Definition NULL_ENTITY : EntityMeta.t :=
  EntityMeta.mk (mkdt (946684800 * us_per_second) false None)
    "undef" (Some "null") "".

(** [class SourceMeta(MetaData)]. *)
Module SourceMeta.

Record t := mk {
  created_datetime : datetime;
  type : string;
  ref : option string;
  url : option string
}.

Definition type_enum : list string := ["user"; "document"; "website"].

Section Methods.
Context {P : Platform}.

Definition validate_fields (data : pydict) : result t :=
  Ok mk
    <*> required "created_datetime" MetaData.datetime_validator data
    <*> required "type" str_validator data
    <*> with_default "ref" (Some "") optional_str_validator data
    <*> with_default "url" (Some "") optional_str_validator data.

Definition model_validate (obj : pyval) : result t :=
  match obj with
  | PDict data => validate_fields data
  | _ => line_errors [([], "model_type")]
  end.

Definition model_dump (m : t) : pydict :=
  [("created_datetime", PFloat (MetaData.serialize_dt (created_datetime m)));
   ("type", PStr (type m));
   ("ref", optional_str_dump (ref m));
   ("url", optional_str_dump (url m))].

Definition model_dump_json (m : t) : string :=
  Json.object
    [("created_datetime", json_float (MetaData.serialize_dt (created_datetime m)));
     ("type", Json.json_str (type m));
     ("ref", Json.json_optional_str (ref m));
     ("url", Json.json_optional_str (url m))].

End Methods.

Definition eqb (a b : t) : bool :=
  dt_eq (created_datetime a) (created_datetime b)
  && String.eqb (type a) (type b)
  && option_eqb (ref a) (ref b)
  && option_eqb (url a) (url b).

End SourceMeta.

(** [class DataMeta(MetaData)]. *)
Module DataMeta.

Record t := mk {
  created_datetime : datetime;
  type : string;
  owner : EntityMeta.t;
  creator : EntityMeta.t;
  source : SourceMeta.t
}.

Definition type_enum : list string := ["data"; "content"].

Section Methods.
Context {P : Platform}.

Definition validate_fields (data : pydict) : result t :=
  Ok mk
    <*> required "created_datetime" MetaData.datetime_validator data
    <*> required "type" str_validator data
    <*> required "owner" EntityMeta.model_validate data
    <*> required "creator" EntityMeta.model_validate data
    <*> required "source" SourceMeta.model_validate data.

Definition model_validate (obj : pyval) : result t :=
  match obj with
  | PDict data => validate_fields data
  | _ => line_errors [([], "model_type")]
  end.

Definition model_dump (m : t) : pydict :=
  [("created_datetime", PFloat (MetaData.serialize_dt (created_datetime m)));
   ("type", PStr (type m));
   ("owner", PDict (EntityMeta.model_dump (owner m)));
   ("creator", PDict (EntityMeta.model_dump (creator m)));
   ("source", PDict (SourceMeta.model_dump (source m)))].

Definition model_dump_json (m : t) : string :=
  Json.object
    [("created_datetime", json_float (MetaData.serialize_dt (created_datetime m)));
     ("type", Json.json_str (type m));
     ("owner", EntityMeta.model_dump_json (owner m));
     ("creator", EntityMeta.model_dump_json (creator m));
     ("source", SourceMeta.model_dump_json (source m))].

End Methods.

Definition eqb (a b : t) : bool :=
  dt_eq (created_datetime a) (created_datetime b)
  && String.eqb (type a) (type b)
  && EntityMeta.eqb (owner a) (owner b)
  && EntityMeta.eqb (creator a) (creator b)
  && SourceMeta.eqb (source a) (source b).

End DataMeta.

(** [class Data(BaseModel)]. *)
Module Data.

Record t := mk {
  meta : DataMeta.t;
  content : string
}.

Definition eqb (a b : t) : bool :=
  DataMeta.eqb (meta a) (meta b) && String.eqb (content a) (content b).

End Data.

(** ** [flatdict.FlatDict] *)

Module FlatDict.

(** [s.split(c)]. *)
Fixpoint split (c : ascii) (s : string) : list string :=
  match s with
  | EmptyString => [""]
  | String a s' =>
      if Ascii.eqb a c then "" :: split c s'
      else
        match split c s' with
        | [] => [String a ""]
        | part :: parts => String a part :: parts
        end
  end.

(** [FlatDict(value, delimiter)] keeps the nested mapping it is given;
    the mappings inside it become [FlatDict]s themselves.  The keys of a
    [model_dump()] are field names and hold no delimiter; the splitting
    [FlatDict] performs on a key that does is left out. *)
Definition t := pydict.

(** [FlatDict.keys()]: the keys that lead to a value that is no mapping,
    joined with the delimiter; an empty mapping is listed under its own
    key. *)
Fixpoint value_keys (delimiter key : string) (value : pyval) : list string :=
  match value with
  | PDict items =>
      let nested :=
        (fix items_keys (l : list (string * pyval)) : list string :=
           match l with
           | [] => []
           | (k, v) :: l' => value_keys delimiter k v ++ items_keys l'
           end) items in
      match nested with
      | [] => [key]
      | _ => map (fun k => (key ++ delimiter ++ k)%string) nested
      end
  | _ => [key]
  end.

Fixpoint keys (delimiter : string) (values : t) : list string :=
  match values with
  | [] => []
  | (k, v) :: rest => value_keys delimiter k v ++ keys delimiter rest
  end.

(** [FlatDict.__getitem__] after the key is split: one lookup per
    part. *)
Fixpoint walk (parts : list string) (values : pyval) : option pyval :=
  match parts with
  | [] => Some values
  | part :: parts' =>
      match values with
      | PDict items =>
          match dict_get part items with
          | Some v => walk parts' v
          | None => None
          end
      | _ => None
      end
  end.

Definition getitem (delimiter : ascii) (values : t) (key : string) : result pyval :=
  match walk (split delimiter key) (PDict values) with
  | Some v => Ok v
  | None => Raise (KeyError key)
  end.

(** [dict(FlatDict(value, delimiter))]: one item per key of [keys()]. *)
Definition to_dict (delimiter : ascii) (values : t) : result pydict :=
  traverse (fun k => v <- getitem delimiter values k ;; Ok (k, v))
    (keys (String delimiter "") values).

End FlatDict.

(** ** [unflatten.unflatten] *)

Module Unflatten.

(** The mapping under construction: a holder is a mapping made for a key
    path, a leaf is a value of the flat mapping. *)
Inductive tree :=
| Leaf (v : pyval)
| Holder (items : list (string * tree)).

Fixpoint tree_get (k : string) (obj : list (string * tree)) : option tree :=
  match obj with
  | [] => None
  | (k', v) :: obj' => if String.eqb k k' then Some v else tree_get k obj'
  end.

Fixpoint tree_set (k : string) (v : tree) (obj : list (string * tree))
    : list (string * tree) :=
  match obj with
  | [] => [(k, v)]
  | (k', v') :: obj' =>
      if String.eqb k k' then (k', v) :: obj' else (k', v') :: tree_set k v obj'
  end.

Definition is_word_char (c : ascii) : bool :=
  let n := nat_of_ascii c in
  (Nat.leb 48 n && Nat.leb n 57) || (Nat.leb 65 n && Nat.leb n 90)
  || (Nat.leb 97 n && Nat.leb n 122) || Nat.eqb n 95.

Fixpoint is_word (s : string) : bool :=
  match s with
  | EmptyString => true
  | String c s' => is_word_char c && is_word s'
  end.

(** [_parse_key]: a key made of words separated by dots gives its words.
    The index ([[0]]) and quoted-key syntaxes of the library, and words
    outside ASCII, are not part of this model: such a key is answered
    with the library's [ValueError]. *)
Definition parse_key (flat_key : string) : result (list string) :=
  let parts := FlatDict.split "." flat_key in
  if forallb is_word parts then Ok parts
  else Raise (ValueError "invalid separator in key").

(** One item of the flat mapping: holders are made along the path and
    the value is stored under the last part. *)
Fixpoint insert (path : list string) (val : pyval) (obj : list (string * tree))
    : result (list (string * tree)) :=
  match path with
  | [] => Ok obj
  | [last_key] =>
      match tree_get last_key obj with
      | Some (Holder _) => Raise (ValueError "conflicting types for key")
      | _ => Ok (tree_set last_key (Leaf val) obj)
      end
  | key :: rest =>
      match tree_get key obj with
      | None =>
          sub <- insert rest val [] ;; Ok (tree_set key (Holder sub) obj)
      | Some (Holder items) =>
          sub <- insert rest val items ;; Ok (tree_set key (Holder sub) obj)
      | Some (Leaf _) => Raise (ValueError "conflicting types for key")
      end
  end.

Fixpoint insert_all (items : pydict) (obj : list (string * tree))
    : result (list (string * tree)) :=
  match items with
  | [] => Ok obj
  | (flat_key, val) :: items' =>
      path <- parse_key flat_key ;;
      obj' <- insert path val obj ;;
      insert_all items' obj'
  end.

(** [holder.getvalue()], for every holder. *)
Fixpoint getvalue (t : tree) : pyval :=
  match t with
  | Leaf v => v
  | Holder items =>
      PDict ((fix values (l : list (string * tree)) : pydict :=
                match l with
                | [] => []
                | (k, v) :: l' => (k, getvalue v) :: values l'
                end) items)
  end.

Definition unflatten (arg : pydict) : result pydict :=
  obj <- insert_all arg [] ;;
  match getvalue (Holder obj) with
  | PDict data => Ok data
  | _ => Ok []
  end.

End Unflatten.

(** ** The codec of [add] and [search] *)

Section Codec.
Context {P : Platform}.

(** [dict(FlatDict(v.meta.model_dump(), delimiter='.'))]. *)
Definition flatten (meta : DataMeta.t) : result pydict :=
  FlatDict.to_dict "." (DataMeta.model_dump meta).

(** [DataMeta.model_validate(unflatten(metadata))]. *)
Definition reconstruct (metadata : pydict) : result DataMeta.t :=
  nested <- Unflatten.unflatten metadata ;;
  DataMeta.model_validate (PDict nested).

End Codec.

(** ** [hashlib] *)

Module Hashlib.

(** 32-bit words are integers reduced modulo [2^32]. *)
Definition w32 (x : Z) : Z := x mod 2 ^ 32.
Definition rotr (n x : Z) : Z := Z.lor (Z.shiftr x n) (w32 (Z.shiftl x (32 - n))).
Definition rotl (n x : Z) : Z := Z.lor (w32 (Z.shiftl x n)) (Z.shiftr x (32 - n)).
Definition not32 (x : Z) : Z := 2 ^ 32 - 1 - x.

Definition bytes_of_string (s : string) : list Z :=
  map (fun c => Z.of_N (N_of_ascii c)) (list_ascii_of_string s).

(** [n] bytes of [x], most significant first. *)
Fixpoint be_bytes (n : nat) (x : Z) : list Z :=
  match n with
  | O => []
  | S n' => (Z.shiftr x (8 * Z.of_nat n')) mod 256 :: be_bytes n' x
  end.

(** The padding of both functions: a [1] bit, zeros up to 56 modulo 64
    bytes, and the length in bits on 64 bits. *)
Definition pad (msg : list Z) : list Z :=
  let len := Z.of_nat (List.length msg) in
  msg ++ [128] ++ repeat 0 (Z.to_nat ((55 - len) mod 64)) ++ be_bytes 8 (8 * len).

Fixpoint words (bytes : list Z) : list Z :=
  match bytes with
  | a :: b :: c :: d :: rest =>
      (Z.shiftl a 24 + Z.shiftl b 16 + Z.shiftl c 8 + d) :: words rest
  | _ => []
  end.

(** The message as blocks of sixteen words. *)
Fixpoint blocks (fuel : nat) (ws : list Z) : list (list Z) :=
  match fuel, ws with
  | S fuel', _ :: _ => firstn 16 ws :: blocks fuel' (skipn 16 ws)
  | _, _ => []
  end.

Definition hex_word (x : Z) : string :=
  string_of_list_ascii
    (map (fun i => Json.hex_digit (Z.to_nat (Z.shiftr x (4 * i) mod 16)))
         [7; 6; 5; 4; 3; 2; 1; 0]).

Definition hex_words (ws : list Z) : string :=
  String.concat "" (map hex_word ws).

(** The message schedule, newest word first: [extend] adds [n] words,
    each computed by [next] from the words before it. *)
Fixpoint extend (next : list Z -> Z) (n : nat) (rev_w : list Z) : list Z :=
  match n with
  | O => rev_w
  | S n' => extend next n' (next rev_w :: rev_w)
  end.

Definition at_ (i : nat) (l : list Z) : Z := nth i l 0.

(** *** SHA-256 *)

(** The integer part of the [k]-th root of [n], found bit by bit below
    [2^bits]. *)
Fixpoint iroot (k : Z) (bits : nat) (n acc : Z) : Z :=
match bits with
| O => acc
| S b =>
    let c := acc + 2 ^ Z.of_nat b in
    if c ^ k <=? n then iroot k b n c else iroot k b n acc
end.

Definition is_prime (n : Z) : bool :=
forallb (fun d => negb (n mod d =? 0)) (map Z.of_nat (seq 2 (Z.to_nat n - 2))).

(** The first sixty-four primes: 2 to 311. *)
Definition primes : list Z :=
  Eval vm_compute in filter is_prime (map Z.of_nat (seq 2 310)).

(** The round constants: the first 32 bits of the fractional parts of the
    cube roots of the first sixty-four primes. *)
Definition K256 : list Z :=
  Eval vm_compute in map (fun p => w32 (iroot 3 40 (p * 2 ^ 96) 0)) primes.

(** The initial hash value: the first 32 bits of the fractional parts of
    the square roots of the first eight primes. *)
Definition H256 : list Z :=
  Eval vm_compute in map (fun p => w32 (iroot 2 40 (p * 2 ^ 64) 0)) (firstn 8 primes).

Definition next256 (rev_w : list Z) : Z :=
  let w2 := at_ 1 rev_w in
  let w15 := at_ 14 rev_w in
  let s0 := Z.lxor (Z.lxor (rotr 7 w15) (rotr 18 w15)) (Z.shiftr w15 3) in
  let s1 := Z.lxor (Z.lxor (rotr 17 w2) (rotr 19 w2)) (Z.shiftr w2 10) in
  w32 (s1 + at_ 6 rev_w + s0 + at_ 15 rev_w).

Definition round256 (st : list Z) (kw : Z * Z) : list Z :=
  match st with
  | [a; b; c; d; e; f; g; h] =>
      let S1 := Z.lxor (Z.lxor (rotr 6 e) (rotr 11 e)) (rotr 25 e) in
      let ch := Z.lxor (Z.land e f) (Z.land (not32 e) g) in
      let t1 := h + S1 + ch + fst kw + snd kw in
      let S0 := Z.lxor (Z.lxor (rotr 2 a) (rotr 13 a)) (rotr 22 a) in
      let maj := Z.lxor (Z.lxor (Z.land a b) (Z.land a c)) (Z.land b c) in
      [w32 (t1 + S0 + maj); a; b; c; w32 (d + t1); e; f; g]
  | _ => st
  end.

Definition add_words (x y : list Z) : list Z :=
  map (fun p => w32 (fst p + snd p)) (combine x y).

Definition compress256 (st block : list Z) : list Z :=
  let w := rev (extend next256 48 (rev block)) in
  add_words st (fold_left round256 (combine K256 w) st).

Definition sha256_words (msg : list Z) : list Z :=
  let ws := words (pad msg) in
  fold_left compress256 (blocks (List.length ws) ws) H256.

(** [hashlib.sha256(data).hexdigest()]. *)
Definition sha256_hexdigest (data : string) : string :=
  hex_words (sha256_words (bytes_of_string data)).

(** *** SHA-1 *)

Definition H1 : list Z :=
  [0x67452301; 0xefcdab89; 0x98badcfe; 0x10325476; 0xc3d2e1f0].

Definition next1 (rev_w : list Z) : Z :=
  rotl 1 (Z.lxor (Z.lxor (at_ 2 rev_w) (at_ 7 rev_w))
                 (Z.lxor (at_ 13 rev_w) (at_ 15 rev_w))).

Definition round1 (st : list Z) (tw : Z * Z) : list Z :=
  match st with
  | [a; b; c; d; e] =>
      let t := fst tw in
      let '(f, k) :=
        if t <? 20 then (Z.lor (Z.land b c) (Z.land (not32 b) d), 0x5a827999)
        else if t <? 40 then (Z.lxor (Z.lxor b c) d, 0x6ed9eba1)
        else if t <? 60
             then (Z.lor (Z.lor (Z.land b c) (Z.land b d)) (Z.land c d), 0x8f1bbcdc)
        else (Z.lxor (Z.lxor b c) d, 0xca62c1d6) in
      [w32 (rotl 5 a + f + e + k + snd tw); a; rotl 30 b; c; d]
  | _ => st
  end.

Definition compress1 (st block : list Z) : list Z :=
  let w := rev (extend next1 64 (rev block)) in
  add_words st (fold_left round1 (combine (map Z.of_nat (seq 0 80)) w) st).

Definition sha1_words (msg : list Z) : list Z :=
  let ws := words (pad msg) in
  fold_left compress1 (blocks (List.length ws) ws) H1.

(** [hashlib.sha1(data).hexdigest()]. *)
Definition sha1_hexdigest (data : string) : string :=
  hex_words (sha1_words (bytes_of_string data)).

End Hashlib.

(** ** [meta_identifier] *)

(** An instance of [MetaData]: of the class itself or of one of its three
    subclasses. *)
Inductive meta :=
| OfMetaData (m : MetaData.t)
| OfEntityMeta (m : EntityMeta.t)
| OfSourceMeta (m : SourceMeta.t)
| OfDataMeta (m : DataMeta.t).

Section Identifier.
Context {P : Platform}.

(** [meta.model_dump_json()]. *)
Definition model_dump_json (m : meta) : string :=
  match m with
  | OfMetaData m => MetaData.model_dump_json m
  | OfEntityMeta m => EntityMeta.model_dump_json m
  | OfSourceMeta m => SourceMeta.model_dump_json m
  | OfDataMeta m => DataMeta.model_dump_json m
  end.

Definition meta_identifier (meta : meta) : string :=
  let meta_encoded := model_dump_json meta in
  let meta_code := Hashlib.sha256_hexdigest meta_encoded in
  let meta_subcode := Hashlib.sha1_hexdigest meta_encoded in
  meta_code ++ ":" ++ meta_subcode.

End Identifier.

(** ** The chromadb client *)

Module Chroma.

(** The result of [collection.query]: one group per query text. *)
Record QueryResult := {
  documents : list (list string);
  metadatas : list (list pydict)
}.

(** The engine behind the client: its state and what its operations
    answer.  Ranking, storage and the engine's own checks are the
    engine's; a collection is named by its name. *)
Class Engine := {
  store : Type;
  list_collections : store -> list string;
  create_collection : string -> store -> result unit * store;
  collection_query : string -> string -> Z -> store -> result QueryResult * store;
  collection_add :
    string -> list string -> list pydict -> list string -> store
    -> result unit * store
}.

(** The calls a client receives. *)
Inductive call :=
| ListCollections
| GetCollection (name : string)
| CreateCollection (name : string)
| Query (collection query_texts : string) (n_results : Z)
| Add (collection : string) (documents : list string)
      (metadatas : list pydict) (ids : list string).

Section Client.
Context {E : Engine}.

(** A [chromadb.ClientAPI] object: the engine's state and the calls
    made so far, oldest first. *)
Record client := mkclient {
  engine : store;
  calls : list call
}.

(** Code that uses the client: it may raise and it may change the
    client. *)
Definition io (A : Type) : Type := client -> result A * client.

Definition ret {A} (a : A) : io A := fun c => (Ok a, c).
Definition raise {A} (e : exn) : io A := fun c => (Raise e, c).
Definition lift {A} (r : result A) : io A := fun c => (r, c).
Definition io_bind {A B} (m : io A) (k : A -> io B) : io B :=
  fun c =>
    match m c with
    | (Ok a, c') => k a c'
    | (Raise e, c') => (Raise e, c')
    end.

Definition record (k : call) (c : client) : client :=
  mkclient (engine c) (calls c ++ [k]).

Definition api_list_collections : io (list string) :=
  fun c => (Ok (list_collections (engine c)), record ListCollections c).

(** [api.get_collection(name)] answers with the collection when the
    engine lists it. *)
Definition api_get_collection (name : string) : io string :=
  fun c =>
    let c' := record (GetCollection name) c in
    if existsb (String.eqb name) (list_collections (engine c))
    then (Ok name, c')
    else (Raise (ValueError ("Collection " ++ name ++ " does not exist.")), c').

Definition api_create_collection (name : string) : io unit :=
  fun c =>
    let (r, s) := create_collection name (engine c) in
    (r, mkclient s (calls c ++ [CreateCollection name])).

Definition query (collection query_texts : string) (n_results : Z)
    : io QueryResult :=
  fun c =>
    let (r, s) := collection_query collection query_texts n_results (engine c) in
    (r, mkclient s (calls c ++ [Query collection query_texts n_results])).

Definition add (collection : string) (documents : list string)
    (metadatas : list pydict) (ids : list string) : io unit :=
  fun c =>
    let (r, s) := collection_add collection documents metadatas ids (engine c) in
    (r, mkclient s (calls c ++ [Add collection documents metadatas ids])).

End Client.

End Chroma.
Import Chroma.

Notation "x <~ c ;; k" := (io_bind c (fun x => k))
  (at level 61, c at next level, right associativity) : py_scope.

(** ** Iterables *)

(** The [items] argument of [add] is an [Iterable]: a sequence (a list, a
    tuple) hands out all its elements each time it is iterated, an iterator
    (a generator) hands out what is left of it and is empty afterwards. *)
Inductive iterable (A : Type) :=
| Sequence (elements : list A)
| Iterator (remaining : list A).
Arguments Sequence {A} elements.
Arguments Iterator {A} remaining.

(** One [for v in items] loop run to its end: the elements it visits and
    the iterable afterwards. *)
Definition iterate {A} (items : iterable A) : list A * iterable A :=
  match items with
  | Sequence elements => (elements, Sequence elements)
  | Iterator remaining => (remaining, Iterator [])
  end.

(** ** [class VectorDatabase] *)

Module VectorDatabase.

Section Methods.
Context {P : Platform} {E : Engine}.

Definition create_collection (name : string) : io unit :=
  api_create_collection name.

Definition has_collection (name : string) : io bool :=
  collection_names <~ api_list_collections ;;
  ret (existsb (String.eqb name) collection_names).

(** [results[key][0]]. *)
Definition first_group {A} (groups : list (list A)) : result (list A) :=
  match groups with
  | g :: _ => Ok g
  | [] => Raise (IndexError "list index out of range")
  end.

Definition search (collection_name descriptions : string) (limit : Z)
    : io (list Data.t) :=
  has <~ has_collection collection_name ;;
  if negb has
  then raise (ValueError ("Collection " ++ collection_name ++ " does not exist."))
  else
    collection <~ api_get_collection collection_name ;;
    results <~ query collection descriptions limit ;;
    metadatas <~ lift (first_group (Chroma.metadatas results)) ;;
    contents <~ lift (first_group (Chroma.documents results)) ;;
    lift (traverse
            (fun mc =>
               meta <- reconstruct (fst mc) ;;
               Ok (Data.mk meta (snd mc)))
            (combine metadatas contents)).

(** [add]: the three comprehensions each run one loop over [items], in
    the order of the keyword arguments.  The iterable as the call
    leaves it is returned with the client. *)
Definition add (collection_name : string) (items : iterable Data.t)
    : io (iterable Data.t) :=
  has <~ has_collection collection_name ;;
  if negb has
  then raise (ValueError ("Collection " ++ collection_name ++ " does not exist."))
  else
    collection <~ api_get_collection collection_name ;;
    let (vs1, items1) := iterate items in
    let documents := map Data.content vs1 in
    let (vs2, items2) := iterate items1 in
    metadatas <~ lift (traverse (fun v => flatten (Data.meta v)) vs2) ;;
    let (vs3, items3) := iterate items2 in
    let ids := map (fun v => meta_identifier (OfDataMeta (Data.meta v))) vs3 in
    _ <~ Chroma.add collection documents metadatas ids ;;
    ret items3.

End Methods.

End VectorDatabase.

(** ** Worked platform and engine *)

(** The decimal rendering of a [float] by the JSON serializer: the shortest
    decimal that reads back as the same binary64 value, nearest to it. *)
Module FloatRepr.

Fixpoint digits_fuel (fuel : nat) (n : Z) (acc : string) : string :=
  match fuel with
  | O => acc
  | S fuel' =>
      let acc' := String (ascii_of_nat (48 + Z.to_nat (n mod 10))) acc in
      if n <? 10 then acc' else digits_fuel fuel' (n / 10) acc'
  end.

(** The decimal digits of [0 <= n]. *)
Definition digits (n : Z) : string :=
  digits_fuel (S (Z.to_nat (Z.log2 n))) n "".

Definition zeros (n : Z) : string :=
  string_of_list_ascii (repeat "0"%char (Z.to_nat n)).

(** The integers [d] with [d * 10^k] in the rounding interval of
    [m * 2^e], nearest to the value first; none when there is none. *)
Definition candidate (m e k : Z) : option Z :=
  let lower := if (m =? 2 ^ 52) && (-1074 <? e) then 4 * m - 1 else 4 * m - 2 in
  let upper := 4 * m + 2 in
  let a := 2 ^ Z.max (e - 2) 0 * 10 ^ Z.max (- k) 0 in
  let b := 2 ^ Z.max (2 - e) 0 * 10 ^ Z.max k 0 in
  let closed := Z.even m in
  let d_min :=
    if closed then (lower * a + b - 1) / b else lower * a / b + 1 in
  let d_max :=
    if closed then upper * a / b else (upper * a + b - 1) / b - 1 in
  if d_max <? d_min then None
  else
    let q := 4 * m * a / b in
    let r := 4 * m * a mod b in
    let nearest :=
      if 2 * r <? b then q
      else if b <? 2 * r then q + 1
      else if Z.even q then q else q + 1 in
    Some (Z.max d_min (Z.min d_max nearest)).

(** The largest decimal exponent that has a candidate gives the fewest
    digits. *)
Fixpoint shortest (fuel : nat) (m e k : Z) : Z * Z :=
  match fuel with
  | O => (m, 0)
  | S fuel' =>
      match candidate m e k with
      | Some d => (d, k)
      | None => shortest fuel' m e (k - 1)
      end
  end.

Definition exponent (x : Z) : string :=
  if x <? 0 then "-" ++ digits (- x) else digits x.

Definition format_finite (m e : Z) : string :=
  let k0 := (Z.log2 m + e + 1) * 30103 / 100000 + 1 in
  let '(d, k) := shortest 400 m e k0 in
  let ds := digits d in
  let n := Z.of_nat (String.length ds) in
  let kk := n + k in
  if (0 <=? k) && (kk <=? 16) then ds ++ zeros k ++ ".0"
  else if (0 <? kk) && (kk <=? 16)
       then substring 0 (Z.to_nat kk) ds ++ "."
            ++ substring (Z.to_nat kk) (Z.to_nat (n - kk)) ds
  else if (-5 <? kk) && (kk <=? 0) then "0." ++ zeros (- kk) ++ ds
  else if n =? 1 then ds ++ "e" ++ exponent (kk - 1)
  else substring 0 1 ds ++ "." ++ substring 1 (Z.to_nat (n - 1)) ds
       ++ "e" ++ exponent (kk - 1).

Definition repr (f : float) : string :=
  match Prim2SF f with
  | S754_zero s => if s then "-0.0" else "0.0"
  | S754_finite s m e =>
      (if s then "-" else "") ++ format_finite (Z.pos m) e
  | _ => "null"
  end.

End FloatRepr.

(** A platform whose local time is UTC and whose inputs for a date are
    [datetime] objects and [float] timestamps only. *)
Definition utc_platform : Platform := {|
  localtime := fun u => u;
  coerce_datetime := fun _ => None;
  json_float := FloatRepr.repr
|}.

(** A platform on United States Eastern time in 2024: five hours behind UTC
    until 2024-03-10T07:00:00Z and from 2024-11-03T06:00:00Z, four hours
    behind in between. *)
Definition eastern_platform : Platform := {|
  localtime := fun u =>
    if (1710054000 <=? u) && (u <? 1730613600) then u - 14400 else u - 18000;
  coerce_datetime := fun _ => None;
  json_float := FloatRepr.repr
|}.

(** An engine that keeps its collections in a list and ranks by age: a
    query answers with the oldest [n_results] entries of the collection. *)
Module ListEngine.

Record entry := {
  entry_id : string;
  entry_document : string;
  entry_metadata : pydict
}.

Definition t := list (string * list entry).

Definition names (s : t) : list string := map fst s.

Definition create (name : string) (s : t) : result unit * t :=
  if existsb (String.eqb name) (names s)
  then (Raise (ValueError "Collection already exists"), s)
  else (Ok tt, s ++ [(name, [])]).

Fixpoint entries_of (name : string) (s : t) : list entry :=
  match s with
  | [] => []
  | (n, es) :: s' => if String.eqb name n then es else entries_of name s'
  end.

Definition query (name query_texts : string) (n_results : Z) (s : t)
    : result QueryResult * t :=
  let es := firstn (Z.to_nat n_results) (entries_of name s) in
  (Ok {| documents := [map entry_document es];
         metadatas := [map entry_metadata es] |}, s).

Fixpoint zip3 (ids docs : list string) (metas : list pydict) : list entry :=
  match ids, docs, metas with
  | i :: ids', d :: docs', m :: metas' =>
      Build_entry i d m :: zip3 ids' docs' metas'
  | _, _, _ => []
  end.

Definition add (name : string) (docs : list string) (metas : list pydict)
    (ids : list string) (s : t) : result unit * t :=
  if negb (Nat.eqb (List.length docs) (List.length ids)
           && Nat.eqb (List.length metas) (List.length ids))
  then (Raise (ValueError "Unequal lengths"), s)
  else
    (Ok tt,
     map (fun c =>
            if String.eqb name (fst c)
            then (fst c, (snd c ++ zip3 ids docs metas)%list)
            else c) s).

Definition engine : Engine := {|
  store := t;
  list_collections := names;
  create_collection := create;
  collection_query := query;
  collection_add := add
|}.

End ListEngine.

(** ** Definitions the properties are stated with *)

(** The flat mapping of a [DataMeta], item by item. *)
Definition flat_items {P : Platform} (m : DataMeta.t) : pydict :=
  let ts d := PFloat (MetaData.serialize_dt d) in
  let owner := DataMeta.owner m in
  let creator := DataMeta.creator m in
  let source := DataMeta.source m in
  [("created_datetime", ts (DataMeta.created_datetime m));
   ("type", PStr (DataMeta.type m));
   ("owner.created_datetime", ts (EntityMeta.created_datetime owner));
   ("owner.type", PStr (EntityMeta.type owner));
   ("owner.name", optional_str_dump (EntityMeta.name owner));
   ("owner.id", PStr (EntityMeta.id owner));
   ("creator.created_datetime", ts (EntityMeta.created_datetime creator));
   ("creator.type", PStr (EntityMeta.type creator));
   ("creator.name", optional_str_dump (EntityMeta.name creator));
   ("creator.id", PStr (EntityMeta.id creator));
   ("source.created_datetime", ts (SourceMeta.created_datetime source));
   ("source.type", PStr (SourceMeta.type source));
   ("source.ref", optional_str_dump (SourceMeta.ref source));
   ("source.url", optional_str_dump (SourceMeta.url source))].

(** The exception of [add] and [search] for a collection that is absent. *)
Definition not_exist (name : string) : exn :=
  ValueError ("Collection " ++ name ++ " does not exist.").


(** [datetime.fromtimestamp(d.timestamp()) == d]. *)
Definition restored {P : Platform} (d : datetime) : bool :=
  match fromtimestamp localtime (MetaData.serialize_dt d) with
  | Ok d' => dt_eq d' d
  | Raise _ => false
  end.

(** The classes [meta_identifier] accepts an instance of. *)
Inductive model_class :=
| MetaDataClass
| EntityMetaClass
| SourceMetaClass
| DataMetaClass.

(** A class called with keyword arguments: the arguments are validated
    as the fields of the record. *)
Definition construct {P : Platform} (cls : model_class) (kwargs : pydict)
    : result meta :=
  match cls with
  | MetaDataClass => m <- MetaData.validate_fields kwargs ;; Ok (OfMetaData m)
  | EntityMetaClass => m <- EntityMeta.validate_fields kwargs ;; Ok (OfEntityMeta m)
  | SourceMetaClass => m <- SourceMeta.validate_fields kwargs ;; Ok (OfSourceMeta m)
  | DataMetaClass => m <- DataMeta.validate_fields kwargs ;; Ok (OfDataMeta m)
  end.




(** ** Worked records *)

(** 2024-01-01T00:00:00, naive: 1704067200 seconds after the epoch of the
    wall clock. *)
Definition new_year_2024 : datetime := mkdt (1704067200 * us_per_second) false None.

(** The same calendar fields with [tzinfo=timezone.utc]. *)
Definition new_year_2024_utc : datetime :=
  mkdt (1704067200 * us_per_second) false (Some 0).

Definition assistant : EntityMeta.t :=
  EntityMeta.mk new_year_2024 "agent" (Some "assistant") "agent-1".

Definition typed_by_user : SourceMeta.t :=
  SourceMeta.mk new_year_2024 "user" (Some "") (Some "").

(** The record of the scenario: content metadata owned by [NULL_ENTITY],
    created by the agent ["assistant"], typed by a user. *)
Definition hello_meta : DataMeta.t :=
  DataMeta.mk new_year_2024 "content" NULL_ENTITY assistant typed_by_user.

Definition hello : Data.t := Data.mk hello_meta "hello world".

(** The same record stamped with an aware date-time. *)
Definition hello_meta_utc : DataMeta.t :=
  DataMeta.mk new_year_2024_utc "content" NULL_ENTITY assistant typed_by_user.

(** A client of the list engine that has the collection ["notes"], empty,
    and has received no call. *)
Definition notes_client : @client ListEngine.engine :=
  @mkclient ListEngine.engine [("notes", [])] [].

(** The client after the scenario's item was added to ["notes"]. *)
Definition notes_with_hello : @client ListEngine.engine :=
  snd (VectorDatabase.add (P := utc_platform) "notes" (Sequence [hello]) notes_client).

(** The keyword arguments of the agent ["assistant"], written in two
    orders. *)
Definition assistant_kwargs : pydict :=
  [("created_datetime", PDatetime new_year_2024);
   ("type", PStr "agent"); ("name", PStr "assistant"); ("id", PStr "agent-1")].


(** An engine that answers from a script: it lists the names it holds,
    answers every query with [query_answer] and every add with
    [add_answer]. *)
Definition scripted_engine (query_answer : result QueryResult)
    (add_answer : result unit) : Engine := {|
  store := list string;
  list_collections := fun s => s;
  create_collection := fun name s => (Ok tt, s ++ [name]);
  collection_query := fun _ _ _ s => (query_answer, s);
  collection_add := fun _ _ _ _ s => (add_answer, s)
|}.

(** A client of a scripted engine that holds the collection ["notes"] and
    has received no call. *)
Definition scripted_client (query_answer : result QueryResult)
    (add_answer : result unit) : @client (scripted_engine query_answer add_answer) :=
  @mkclient (scripted_engine query_answer add_answer) ["notes"] [].

(** The answer of an engine whose second metadata has no key at all. *)
Definition second_metadata_empty : QueryResult := {|
  documents := [["hello world"; "second"; "third"]];
  metadatas := [[flat_items (P := utc_platform) hello_meta; [];
                 flat_items (P := utc_platform) hello_meta]]
|}.

(** The answer of an engine with two metadata and one document. *)
Definition one_document_short : QueryResult := {|
  documents := [["hello world"]];
  metadatas := [[flat_items (P := utc_platform) hello_meta; []]]
|}.

(** The keyword arguments of the agent with one more key, which no class
    declares. *)
Definition assistant_kwargs_and_more : pydict :=
  ("nickname", PStr "bot") :: assistant_kwargs.

(** What an optional text field holds after validation, by what the
    mapping held under its key. *)
Definition optional_taken (given : option pyval) (held : option string) : Prop :=
  (given = None /\ held = Some "")
  \/ (given = Some PNone /\ held = None)
  \/ exists s, given = Some (PStr s) /\ held = Some s.






(** The fields a class declares, inherited fields first. *)
Definition class_fields (cls : model_class) : list string :=
  match cls with
  | MetaDataClass => ["created_datetime"]
  | EntityMetaClass => ["created_datetime"; "type"; "name"; "id"]
  | SourceMetaClass => ["created_datetime"; "type"; "ref"; "url"]
  | DataMetaClass => ["created_datetime"; "type"; "owner"; "creator"; "source"]
  end.

(** * Properties *)

(** ** Helper lemmas *)

Lemma existsb_eqb_In (name : string) (l : list string) :
  existsb (String.eqb name) l = true <-> In name l.
Proof.
  rewrite existsb_exists. split.
  - intros [x [Hin Heq]]. apply String.eqb_eq in Heq. now subst.
  - intros Hin. exists name. split; [assumption | apply String.eqb_refl].
Qed.

Lemma existsb_eqb_not_In (name : string) (l : list string) :
  ~ In name l -> existsb (String.eqb name) l = false.
Proof.
  intros Hn. destruct (existsb (String.eqb name) l) eqn:Hex; [|reflexivity].
  apply existsb_eqb_In in Hex. contradiction.
Qed.


Lemma flatten_flat_items {P : Platform} (m : DataMeta.t) :
  flatten m = Ok (flat_items m).
Proof.
  destruct m as [dt ty [odt oty [oname|] oid] [cdt cty [cname|] cid]
                   [sdt sty [sref|] [surl|]]];
    reflexivity.
Qed.


Section Facade.
Context {P : Platform} {E : Engine}.

Lemma has_collection_run (name : string) (c : client) :
  VectorDatabase.has_collection name c
  = (Ok (existsb (String.eqb name) (list_collections (engine c))),
     record ListCollections c).
Proof. reflexivity. Qed.

Lemma add_absent (name : string) (items : iterable Data.t) (c : client) :
  ~ In name (list_collections (engine c)) ->
  VectorDatabase.add name items c
  = (Raise (not_exist name), record ListCollections c).
Proof.
  intros Hn. unfold VectorDatabase.add, io_bind.
  rewrite has_collection_run, (existsb_eqb_not_In _ _ Hn). reflexivity.
Qed.

Lemma search_absent (name text : string) (limit : Z) (c : client) :
  ~ In name (list_collections (engine c)) ->
  VectorDatabase.search name text limit c
  = (Raise (not_exist name), record ListCollections c).
Proof.
  intros Hn. unfold VectorDatabase.search, io_bind.
  rewrite has_collection_run, (existsb_eqb_not_In _ _ Hn). reflexivity.
Qed.


Lemma search_present (name text : string) (limit : Z) (c : client) :
  In name (list_collections (engine c)) ->
  let '(r, s) := collection_query name text limit (engine c) in
  VectorDatabase.search name text limit c
  = (results <- r ;;
     metadatas <- VectorDatabase.first_group (Chroma.metadatas results) ;;
     contents <- VectorDatabase.first_group (Chroma.documents results) ;;
     traverse
       (fun mc => meta <- reconstruct (fst mc) ;; Ok (Data.mk meta (snd mc)))
       (combine metadatas contents),
     mkclient s (calls c ++ [ListCollections; GetCollection name;
                             Query name text limit])).
Proof.
  intros Hin. apply existsb_eqb_In in Hin.
  unfold VectorDatabase.search, io_bind.
  rewrite has_collection_run, Hin. cbn [negb].
  unfold api_get_collection. cbv beta.
  change (engine (record ListCollections c)) with (engine c). rewrite Hin.
  unfold query, lift. simpl.
  destruct (collection_query name text limit (engine c)) as [[results | e] s];
    simpl; rewrite <- !app_assoc; simpl; [|reflexivity].
  destruct (VectorDatabase.first_group (Chroma.metadatas results));
    simpl; [|reflexivity].
  destruct (VectorDatabase.first_group (Chroma.documents results));
    reflexivity.
Qed.

Lemma traverse_reconstructed (ms : list pydict) (metas : list DataMeta.t) :
  Forall2 (fun md m => reconstruct md = Ok m) ms metas ->
  forall ds : list string,
    traverse
      (fun mc => meta <- reconstruct (fst mc) ;; Ok (Data.mk meta (snd mc)))
      (combine ms ds)
    = Ok (map (fun mc => Data.mk (fst mc) (snd mc)) (combine metas ds)).
Proof.
  induction 1 as [|md m ms metas Hm _ IH]; intros ds.
  - reflexivity.
  - destruct ds as [|d ds]; [reflexivity|].
    simpl. rewrite Hm. simpl. rewrite IH. reflexivity.
Qed.

End Facade.

(** ** The codec on the records *)

Section RoundTrip.
Context {P : Platform}.

Lemma fromtimestamp_naive (t : float) (d : datetime) :
  fromtimestamp localtime t = Ok d -> tzinfo d = None.
Proof.
  unfold fromtimestamp. intros H.
  destruct (float_parts t) as [[m e]|].
  - destruct (_ || _); [discriminate|].
    destruct (if us_per_second <=? _ then _ else _) as [secs us].
    destruct (_ && _); [|discriminate].
    injection H as <-. reflexivity.
  - destruct (is_nan t); discriminate.
Qed.

(** In a zone at a fixed offset from UTC [_mktime] subtracts the offset. *)
Lemma mktime_fixed_offset (offset t : Z) (fold : bool) :
  mktime (fun u => u + offset) t fold = t - offset.
Proof.
  unfold mktime, max_fold_seconds. cbv zeta.
  destruct (Z.eqb_spec (t - (t + offset - t) + offset) t) as [_ | Hne]; [|lia].
  destruct fold; cbn [andb];
    match goal with
    | |- (if ?a =? ?b then _ else _) = _ =>
        destruct (Z.eqb_spec a b) as [_ | Hne]; lia
    end.
Qed.

Lemma restored_naive (d : datetime) : restored d = true -> tzinfo d = None.
Proof.
  unfold restored. intros H.
  destruct (fromtimestamp localtime (MetaData.serialize_dt d)) as [d'|] eqn:Hf;
    [|discriminate].
  apply fromtimestamp_naive in Hf. unfold dt_eq in H. rewrite Hf in H.
  destruct (tzinfo d); [discriminate | reflexivity].
Qed.

Lemma datetime_validator_float (t : float) (d : datetime) :
  fromtimestamp localtime t = Ok d ->
  MetaData.datetime_validator (PFloat t) = Ok d.
Proof.
  intros H. unfold MetaData.datetime_validator, MetaData.validate_dt.
  rewrite H. reflexivity.
Qed.

Lemma datetime_validator_datetime (d : datetime) :
  MetaData.datetime_validator (PDatetime d) = Ok d.
Proof. reflexivity. Qed.

Lemma unflatten_flat_items (m : DataMeta.t) :
  Unflatten.unflatten (flat_items m) = Ok (DataMeta.model_dump m).
Proof. reflexivity. Qed.

Lemma optional_str_validator_dump (o : option string) :
  optional_str_validator (optional_str_dump o) = Ok o.
Proof. destruct o; reflexivity. Qed.

Local Arguments MetaData.datetime_validator : simpl never.
Local Arguments MetaData.serialize_dt : simpl never.
Local Arguments optional_str_validator : simpl never.
Local Arguments optional_str_dump : simpl never.

Lemma EntityMeta_validate_dump (e : EntityMeta.t) (d : datetime) :
  fromtimestamp localtime (MetaData.serialize_dt (EntityMeta.created_datetime e))
  = Ok d ->
  EntityMeta.model_validate (PDict (EntityMeta.model_dump e))
  = Ok (EntityMeta.mk d (EntityMeta.type e) (EntityMeta.name e) (EntityMeta.id e)).
Proof.
  intros H. apply datetime_validator_float in H.
  unfold EntityMeta.model_validate, EntityMeta.validate_fields,
    EntityMeta.model_dump, required, with_default.
  simpl. rewrite H, optional_str_validator_dump. reflexivity.
Qed.

Lemma SourceMeta_validate_dump (s : SourceMeta.t) (d : datetime) :
  fromtimestamp localtime (MetaData.serialize_dt (SourceMeta.created_datetime s))
  = Ok d ->
  SourceMeta.model_validate (PDict (SourceMeta.model_dump s))
  = Ok (SourceMeta.mk d (SourceMeta.type s) (SourceMeta.ref s) (SourceMeta.url s)).
Proof.
  intros H. apply datetime_validator_float in H.
  unfold SourceMeta.model_validate, SourceMeta.validate_fields,
    SourceMeta.model_dump, required, with_default.
  simpl. rewrite H, !optional_str_validator_dump. reflexivity.
Qed.

Local Arguments EntityMeta.model_validate : simpl never.
Local Arguments SourceMeta.model_validate : simpl never.
Local Arguments EntityMeta.model_dump : simpl never.
Local Arguments SourceMeta.model_dump : simpl never.



End RoundTrip.

(** ** The facade *)

(** C3: [add] and [search] on a collection name the engine does not list
    both fail with the exception for an absent collection (the [ValueError]
    "Collection ... does not exist.", the spec's NotFoundError), and when
    they fail the client has received the listing call only: no add, no
    query, no call that changes the engine, whose state is unchanged. *)
Theorem absent_collection_fails_before_engine_use
    {P : Platform} {E : Engine} (name : string) (c : client) :
  ~ In name (list_collections (engine c)) ->
  (forall items : iterable Data.t,
      fst (VectorDatabase.add name items c) = Raise (not_exist name)
      /\ engine (snd (VectorDatabase.add name items c)) = engine c
      /\ calls (snd (VectorDatabase.add name items c))
         = calls c ++ [ListCollections])
  /\ (forall (text : string) (limit : Z),
         fst (VectorDatabase.search name text limit c) = Raise (not_exist name)
         /\ engine (snd (VectorDatabase.search name text limit c)) = engine c
         /\ calls (snd (VectorDatabase.search name text limit c))
            = calls c ++ [ListCollections]).
Proof.
  intros Hn. split.
  - intros items. rewrite (add_absent name items c Hn). repeat split.
  - intros text limit. rewrite (search_absent name text limit c Hn).
    repeat split.
Qed.

Lemma absent_collection_fails_before_engine_use_witness :
  ~ In "drafts" (list_collections (engine notes_client))
  /\ fst (VectorDatabase.add (P := utc_platform) "drafts" (Sequence [hello]) notes_client)
     = Raise (ValueError "Collection drafts does not exist.")
  /\ calls (snd (VectorDatabase.search (P := utc_platform) "drafts" "hello" 1 notes_client))
     = [ListCollections].
Proof.
  assert (Hn : ~ In "drafts" (list_collections (engine notes_client))).
  { simpl. intros [H | []]. discriminate H. }
  split; [exact Hn|].
  destruct (absent_collection_fails_before_engine_use
              (P := utc_platform) "drafts" notes_client Hn) as [Hadd Hsearch].
  split.
  - exact (proj1 (Hadd (Sequence [hello]))).
  - exact (proj2 (proj2 (Hsearch "hello" 1))).
Defined.





(** C9: on an existing collection, [search] asks the engine once, with the
    query text and [n_results = limit]; of the answer it reads the first
    group of metadata and the first group of documents; when each returned
    metadata reconstructs, the result holds one [Data] per returned pair,
    the i-th made of the i-th reconstructed metadata and the i-th document,
    in the engine's order and as many as the engine returned. *)
Theorem search_keeps_engine_ranking
    {P : Platform} {E : Engine} (name text : string) (limit : Z) (c : client)
    (results : QueryResult) (s : store)
    (ms : list pydict) (mrest : list (list pydict))
    (ds : list string) (drest : list (list string))
    (metas : list DataMeta.t) :
  In name (list_collections (engine c)) ->
  collection_query name text limit (engine c) = (Ok results, s) ->
  Chroma.metadatas results = ms :: mrest ->
  Chroma.documents results = ds :: drest ->
  List.length ms = List.length ds ->
  Forall2 (fun md m => reconstruct md = Ok m) ms metas ->
  VectorDatabase.search name text limit c
  = (Ok (map (fun mc => Data.mk (fst mc) (snd mc)) (combine metas ds)),
     mkclient s (calls c ++ [ListCollections; GetCollection name;
                             Query name text limit]))
  /\ List.length (combine metas ds) = List.length ms.
Proof.
  intros Hin Hq Hm Hd Hlen Hrec.
  pose proof (search_present name text limit c Hin) as H.
  rewrite Hq in H. rewrite H. simpl. rewrite Hm, Hd. simpl.
  rewrite (traverse_reconstructed ms metas Hrec ds). split; [reflexivity|].
  rewrite length_combine, <- (Forall2_length Hrec), <- Hlen.
  apply Nat.min_id.
Qed.

Lemma search_keeps_engine_ranking_witness :
  In "notes" (list_collections (engine notes_with_hello))
  /\ fst (VectorDatabase.search (P := utc_platform) "notes" "hello" 1 notes_with_hello)
     = Ok [hello].
Proof.
  assert (Hin : In "notes" (list_collections (engine notes_with_hello))).
  { simpl. left. reflexivity. }
  split; [exact Hin|].
  pose proof
    (search_keeps_engine_ranking (P := utc_platform) "notes" "hello" 1
       notes_with_hello
       {| documents := [["hello world"]];
          metadatas := [[flat_items (P := utc_platform) hello_meta]] |}
       (engine notes_with_hello)
       [flat_items (P := utc_platform) hello_meta] []
       ["hello world"] [] [hello_meta]
       Hin eq_refl eq_refl eq_refl eq_refl) as H.
  assert (Hrec : Forall2
            (fun md m => reconstruct (P := utc_platform) md = Ok m)
            [flat_items (P := utc_platform) hello_meta] [hello_meta]).
  { constructor; [vm_compute; reflexivity | constructor]. }
  destruct (H Hrec) as [Hs _]. rewrite Hs. reflexivity.
Defined.

(** ** The codec *)





(** ** Validation *)

(** C2 does not hold of the code: the [type] field of [EntityMeta] is a
    [str] field and its [enum] keyword takes no part in validation, so
    [EntityMeta(created_datetime=d, type=ty, id=i)] is constructed for
    every string [ty], ["robot"] included, which is none of ["undef"],
    ["user"], ["agent"]. *)
Theorem EntityMeta_accepts_any_type {P : Platform} (d : datetime) (ty i : string) :
  EntityMeta.model_validate
    (PDict [("created_datetime", PDatetime d); ("type", PStr ty); ("id", PStr i)])
  = Ok (EntityMeta.mk d ty (Some "") i)
  /\ EntityMeta.model_validate
       (PDict [("created_datetime", PDatetime d); ("type", PStr "robot");
               ("id", PStr i)])
     = Ok (EntityMeta.mk d "robot" (Some "") i)
  /\ existsb (String.eqb "robot") EntityMeta.type_enum = false.
Proof. repeat split. Qed.




(** Local time has gaps: on the Eastern platform the naive
    2024-03-10T02:30:00, which no clock showed, has the timestamp of
    03:30:00 and comes back one hour later. *)
Example gap_time_comes_back_an_hour_later :
  fromtimestamp (@localtime eastern_platform)
    (timestamp (@localtime eastern_platform) (mkdt (1710037800 * 1000000) false None))
  = Ok (mkdt ((1710037800 + 3600) * 1000000) false None).
Proof. vm_compute. reflexivity. Qed.

(** A float has 53 bits: on the UTC platform the last microsecond of the
    naive 9999-12-31T23:59:59.000001 is lost, the second is kept. *)
Example far_microseconds_are_lost :
  fromtimestamp (@localtime utc_platform)
    (timestamp (@localtime utc_platform) (mkdt (max_seconds * 1000000 + 1) false None))
  = Ok (mkdt (max_seconds * 1000000) false None).
Proof. vm_compute. reflexivity. Qed.

(** ** The identifier *)




Section Digests.

















End Digests.

(** The test vectors of the two functions on ["abc"]. *)
Example sha256_abc :
  Hashlib.sha256_hexdigest "abc"
  = "ba7816bf8f01cfea414140de5dae2223b00361a396177a9cb410ff61f20015ad".
Proof. vm_compute. reflexivity. Qed.

Example sha1_abc :
  Hashlib.sha1_hexdigest "abc" = "a9993e364706816aba3e25717850c26c9cd0d89d".
Proof. vm_compute. reflexivity. Qed.


(** * Further properties of the facade *)

Section FacadeFurther.
Context {P : Platform} {E : Engine}.

Lemma traverse_reconstructed_until (good : list pydict) (metas : list DataMeta.t)
    (md : pydict) (after : list pydict) (e : exn) :
  Forall2 (fun md m => reconstruct md = Ok m) good metas ->
  reconstruct md = Raise e ->
  forall ds : list string,
    (List.length good < List.length ds)%nat ->
    traverse
      (fun mc => meta <- reconstruct (fst mc) ;; Ok (Data.mk meta (snd mc)))
      (combine (good ++ md :: after) ds)
    = Raise e.
Proof.
  intros Hgood Hbad.
  induction Hgood as [|g m good metas Hg _ IH]; intros ds Hlen.
  - destruct ds as [|d ds]; [simpl in Hlen; lia|].
    simpl. rewrite Hbad. reflexivity.
  - destruct ds as [|d ds]; [simpl in Hlen; lia|].
    simpl. rewrite Hg. simpl. rewrite IH; [reflexivity | simpl in Hlen; lia].
Qed.

End FacadeFurther.

(** X1: [search] only reads: whatever the name, the text, the limit and the
    engine's answers, the calls it makes are the listing alone, with the
    engine untouched and the exception for an absent collection raised,
    or the listing, the lookup of the collection and one query, with the
    engine left as the query left it.  It never makes an add or a create
    call. *)
Theorem search_never_mutates
    {P : Platform} {E : Engine} (name text : string) (limit : Z) (c : client) :
  (calls (snd (VectorDatabase.search name text limit c))
   = calls c ++ [ListCollections]
   /\ engine (snd (VectorDatabase.search name text limit c)) = engine c
   /\ fst (VectorDatabase.search name text limit c) = Raise (not_exist name))
  \/ (calls (snd (VectorDatabase.search name text limit c))
      = calls c ++ [ListCollections; GetCollection name; Query name text limit]
      /\ engine (snd (VectorDatabase.search name text limit c))
         = snd (collection_query name text limit (engine c))).
Proof.
  destruct (existsb (String.eqb name) (list_collections (engine c))) eqn:Hex.
  - right. apply existsb_eqb_In in Hex.
    pose proof (search_present name text limit c Hex) as H.
    destruct (collection_query name text limit (engine c)) as [r s].
    rewrite H. split; reflexivity.
  - left.
    assert (Hn : ~ In name (list_collections (engine c))).
    { intros Hin. apply existsb_eqb_In in Hin. congruence. }
    rewrite (search_absent name text limit c Hn). repeat split.
Qed.


(** X3: [search] gives no partial result: on an existing collection, when the
    engine returns a metadata that does not reconstruct, after metadata
    that do and with a document beside it, [search] raises the exception
    of that reconstruction, whatever follows in the answer. *)
Theorem search_raises_on_first_bad_metadata
    {P : Platform} {E : Engine} (name text : string) (limit : Z) (c : client)
    (results : QueryResult) (s : store)
    (good : list pydict) (md : pydict) (after : list pydict)
    (mrest : list (list pydict)) (ds : list string) (drest : list (list string))
    (metas : list DataMeta.t) (e : exn) :
  In name (list_collections (engine c)) ->
  collection_query name text limit (engine c) = (Ok results, s) ->
  Chroma.metadatas results = (good ++ md :: after) :: mrest ->
  Chroma.documents results = ds :: drest ->
  (List.length good < List.length ds)%nat ->
  Forall2 (fun md m => reconstruct md = Ok m) good metas ->
  reconstruct md = Raise e ->
  fst (VectorDatabase.search name text limit c) = Raise e.
Proof.
  intros Hin Hq Hm Hd Hlen Hgood Hbad.
  pose proof (search_present name text limit c Hin) as H.
  rewrite Hq in H. rewrite H. simpl. rewrite Hm, Hd. simpl.
  apply (traverse_reconstructed_until good metas md after e Hgood Hbad ds Hlen).
Qed.

Lemma search_raises_on_first_bad_metadata_witness :
  fst (VectorDatabase.search (P := utc_platform)
         "notes" "hello" 3 (scripted_client (Ok second_metadata_empty) (Ok tt)))
  = Raise (ValidationError
             [(["created_datetime"], "missing"); (["type"], "missing");
              (["owner"], "missing"); (["creator"], "missing");
              (["source"], "missing")]).
Proof.
  apply (search_raises_on_first_bad_metadata (P := utc_platform)
           "notes" "hello" 3 (scripted_client (Ok second_metadata_empty) (Ok tt))
           second_metadata_empty ["notes"]
           [flat_items (P := utc_platform) hello_meta] []
           [flat_items (P := utc_platform) hello_meta] []
           ["hello world"; "second"; "third"] [] [hello_meta]).
  - simpl. left. reflexivity.
  - reflexivity.
  - reflexivity.
  - reflexivity.
  - simpl. lia.
  - constructor; [vm_compute; reflexivity | constructor].
  - vm_compute. reflexivity.
Defined.

(** X4: [search] pairs metadata and documents up to the shorter of the two
    groups: on an existing collection, when the metadata that have a
    document beside them all reconstruct, the result has as many items as
    the shorter group, and what the longer group holds beyond that is
    dropped without an error. *)
Theorem search_pairs_up_to_the_shorter_group
    {P : Platform} {E : Engine} (name text : string) (limit : Z) (c : client)
    (results : QueryResult) (s : store)
    (ms : list pydict) (mrest : list (list pydict))
    (ds : list string) (drest : list (list string))
    (metas : list DataMeta.t) :
  In name (list_collections (engine c)) ->
  collection_query name text limit (engine c) = (Ok results, s) ->
  Chroma.metadatas results = ms :: mrest ->
  Chroma.documents results = ds :: drest ->
  Forall2 (fun md m => reconstruct md = Ok m) (firstn (List.length ds) ms) metas ->
  exists found,
    fst (VectorDatabase.search name text limit c) = Ok found
    /\ found = map (fun mc => Data.mk (fst mc) (snd mc)) (combine metas ds)
    /\ List.length found = Nat.min (List.length ms) (List.length ds).
Proof.
  intros Hin Hq Hm Hd Hrec.
  pose proof (search_present name text limit c Hin) as H.
  rewrite Hq in H. rewrite H. simpl. rewrite Hm, Hd. simpl.
  rewrite (combine_firstn_r ms ds).
  rewrite (traverse_reconstructed _ metas Hrec ds).
  eexists. split; [reflexivity|]. split; [reflexivity|].
  rewrite length_map, length_combine, <- (Forall2_length Hrec), length_firstn.
  lia.
Qed.

Lemma search_pairs_up_to_the_shorter_group_witness :
  fst (VectorDatabase.search (P := utc_platform)
         "notes" "hello" 2 (scripted_client (Ok one_document_short) (Ok tt)))
  = Ok [hello].
Proof.
  destruct (search_pairs_up_to_the_shorter_group (P := utc_platform)
              "notes" "hello" 2 (scripted_client (Ok one_document_short) (Ok tt))
              one_document_short ["notes"]
              [flat_items (P := utc_platform) hello_meta; []] []
              ["hello world"] [] [hello_meta])
    as [found [Hfound [Heq _]]].
  - simpl. left. reflexivity.
  - reflexivity.
  - reflexivity.
  - reflexivity.
  - constructor; [vm_compute; reflexivity | constructor].
  - rewrite Hfound, Heq. reflexivity.
Defined.

(** X5: [search] reads the first group of the answer with index 0: on an
    existing collection, an answer of the engine without a group of
    metadata, or without a group of documents, makes [search] raise an
    [IndexError]. *)
Theorem search_raises_IndexError_without_groups
    {P : Platform} {E : Engine} (name text : string) (limit : Z) (c : client)
    (results : QueryResult) (s : store) :
  In name (list_collections (engine c)) ->
  collection_query name text limit (engine c) = (Ok results, s) ->
  Chroma.metadatas results = [] \/ Chroma.documents results = [] ->
  fst (VectorDatabase.search name text limit c)
  = Raise (IndexError "list index out of range").
Proof.
  intros Hin Hq Hempty.
  pose proof (search_present name text limit c Hin) as H.
  rewrite Hq in H. rewrite H. simpl.
  destruct Hempty as [Hm | Hd].
  - rewrite Hm. reflexivity.
  - rewrite Hd. destruct (Chroma.metadatas results); reflexivity.
Qed.

Lemma search_raises_IndexError_without_groups_witness :
  fst (VectorDatabase.search (P := utc_platform)
         "notes" "hello" 1
         (scripted_client (Ok {| documents := []; metadatas := [] |}) (Ok tt)))
  = Raise (IndexError "list index out of range").
Proof.
  apply (search_raises_IndexError_without_groups (P := utc_platform)
           "notes" "hello" 1
           (scripted_client (Ok {| documents := []; metadatas := [] |}) (Ok tt))
           {| documents := []; metadatas := [] |} ["notes"]).
  - simpl. left. reflexivity.
  - reflexivity.
  - left. reflexivity.
Defined.

(** X6: An exception of the engine's query leaves [search] as it is: on an
    existing collection, when the query raises, [search] raises the same
    exception, after the listing, the lookup and that one query, and
    reconstructs nothing. *)
Theorem search_raises_what_the_query_raises
    {P : Platform} {E : Engine} (name text : string) (limit : Z) (c : client)
    (e : exn) (s : store) :
  In name (list_collections (engine c)) ->
  collection_query name text limit (engine c) = (Raise e, s) ->
  VectorDatabase.search name text limit c
  = (Raise e,
     mkclient s (calls c ++ [ListCollections; GetCollection name;
                             Query name text limit])).
Proof.
  intros Hin Hq.
  pose proof (search_present name text limit c Hin) as H.
  rewrite Hq in H. exact H.
Qed.

Lemma search_raises_what_the_query_raises_witness :
  fst (VectorDatabase.search (P := utc_platform)
         "notes" "hello" 1
         (scripted_client (Raise (ValueError "malformed query")) (Ok tt)))
  = Raise (ValueError "malformed query").
Proof.
  rewrite (search_raises_what_the_query_raises (P := utc_platform)
             "notes" "hello" 1
             (scripted_client (Raise (ValueError "malformed query")) (Ok tt))
             (ValueError "malformed query") ["notes"]).
  - reflexivity.
  - simpl. left. reflexivity.
  - reflexivity.
Defined.

(** * Further properties of validation *)

Section Inversion.
Context {P : Platform}.

Lemma bind_Ok {A B} (r : result A) (k : A -> result B) (b : B) :
  bind r k = Ok b -> exists a, r = Ok a /\ k a = Ok b.
Proof. destruct r as [a | e]; simpl; [eauto | discriminate]. Qed.

Lemma ap_Ok {A B} (rf : result (A -> B)) (ra : result A) (b : B) :
  ap rf ra = Ok b -> exists f a, rf = Ok f /\ ra = Ok a /\ b = f a.
Proof.
  destruct rf as [f | e], ra as [a | e']; simpl.
  - intros H. injection H as <-. eauto.
  - discriminate.
  - destruct e; discriminate.
  - destruct e; try discriminate. destruct e'; discriminate.
Qed.

Lemma at_loc_Ok {A} (name : string) (r : result A) (a : A) :
  at_loc name r = Ok a -> r = Ok a.
Proof. destruct r as [x | e]; simpl; [auto | destruct e; discriminate]. Qed.

Lemma required_Ok {A} (name : string) (validate : pyval -> result A)
    (data : pydict) (a : A) :
  required name validate data = Ok a ->
  exists v, dict_get name data = Some v /\ validate v = Ok a.
Proof.
  unfold required. destruct (dict_get name data) as [v|]; [|discriminate].
  intros H. apply at_loc_Ok in H. eauto.
Qed.

Lemma with_default_Ok {A} (name : string) (default : A)
    (validate : pyval -> result A) (data : pydict) (a : A) :
  with_default name default validate data = Ok a ->
  (dict_get name data = None /\ a = default)
  \/ exists v, dict_get name data = Some v /\ validate v = Ok a.
Proof.
  unfold with_default. destruct (dict_get name data) as [v|].
  - intros H. apply at_loc_Ok in H. right. eauto.
  - intros H. injection H as <-. left. auto.
Qed.

Lemma str_validator_Ok (v : pyval) (s : string) :
  str_validator v = Ok s -> v = PStr s.
Proof. destruct v; simpl; try discriminate. intros H. now injection H as <-. Qed.

Lemma optional_str_validator_Ok (v : pyval) (o : option string) :
  optional_str_validator v = Ok o ->
  (v = PNone /\ o = None) \/ exists s, v = PStr s /\ o = Some s.
Proof.
  destruct v; simpl; try discriminate; intros H; injection H as <-; eauto.
Qed.

Lemma in_validator_Ok {A} (r : result A) (a : A) :
  in_validator r = Ok a -> r = Ok a.
Proof. destruct r as [x | e]; simpl; [auto | destruct e; discriminate]. Qed.

Lemma optional_field_Ok (name : string) (data : pydict) (o : option string) :
  with_default name (Some "") optional_str_validator data = Ok o ->
  optional_taken (dict_get name data) o.
Proof.
  intros H. apply with_default_Ok in H.
  destruct H as [[Hnone ->] | [v [Hv Hval]]].
  - left. auto.
  - apply optional_str_validator_Ok in Hval.
    destruct Hval as [[-> ->] | [s [-> ->]]]; [right; left | right; right]; eauto.
Qed.

Lemma str_field_Ok (name : string) (data : pydict) (s : string) :
  required name str_validator data = Ok s ->
  dict_get name data = Some (PStr s).
Proof.
  intros H. apply required_Ok in H. destruct H as [v [Hv Hval]].
  apply str_validator_Ok in Hval. now subst.
Qed.

End Inversion.

(** X7: What [created_datetime] accepts: when the field validates to [d], the
    input was the [datetime] [d] itself, kept as it is, or a [float] that
    [datetime.fromtimestamp] turns into [d], which is then naive, or an
    input that is neither and that pydantic converts to [d]. *)
Theorem created_datetime_is_kept_or_read_as_local_time
    {P : Platform} (v : pyval) (d : datetime) :
  MetaData.datetime_validator v = Ok d ->
  v = PDatetime d
  \/ (exists t, v = PFloat t /\ fromtimestamp localtime t = Ok d /\ tzinfo d = None)
  \/ ((forall t, v <> PFloat t) /\ (forall d', v <> PDatetime d')
      /\ coerce_datetime v = Some d).
Proof.
  unfold MetaData.datetime_validator. intros H.
  apply bind_Ok in H. destruct H as [v' [Hv' H]].
  apply in_validator_Ok in Hv'.
  destruct v as [| b | z | t | s | d0 | items]; simpl in Hv'.
  1-3, 5, 7:
    injection Hv' as Hv'; subst v'; simpl in H;
    match type of H with
    | context [coerce_datetime ?x] =>
        destruct (coerce_datetime x) as [d1|] eqn:Hc; [|discriminate H]
    end;
    injection H as H; subst d1; right; right;
    split; [intros t' Ht; discriminate Ht|];
    split; [intros d' Hd; discriminate Hd | reflexivity].
  - right. left. exists t.
    apply bind_Ok in Hv'. destruct Hv' as [d1 [Hf Hv']].
    injection Hv' as Hv'. subst v'. simpl in H. injection H as H. subst d1.
    repeat split; [exact Hf | exact (fromtimestamp_naive t d Hf)].
  - injection Hv' as Hv'. subst v'. simpl in H. injection H as H. subst d0.
    left. reflexivity.
Qed.

Lemma created_datetime_is_kept_or_read_as_local_time_witness :
  MetaData.datetime_validator (P := utc_platform) (PFloat 1704067200%float)
  = Ok new_year_2024
  /\ (PFloat 1704067200%float = PDatetime new_year_2024
      \/ (exists t, PFloat 1704067200%float = PFloat t
                    /\ fromtimestamp (@localtime utc_platform) t = Ok new_year_2024
                    /\ tzinfo new_year_2024 = None)
      \/ ((forall t, PFloat 1704067200%float <> PFloat t)
          /\ (forall d', PFloat 1704067200%float <> PDatetime d')
          /\ @coerce_datetime utc_platform (PFloat 1704067200%float)
             = Some new_year_2024)).
Proof.
  assert (H : MetaData.datetime_validator (P := utc_platform)
                (PFloat 1704067200%float) = Ok new_year_2024)
    by (vm_compute; reflexivity).
  split; [exact H|].
  exact (created_datetime_is_kept_or_read_as_local_time (P := utc_platform)
           (PFloat 1704067200%float) new_year_2024 H).
Defined.

(** X8: An [EntityMeta] is only made from a mapping that gives
    [created_datetime], [type] and [id]: when validation succeeds, the
    input is a mapping, [type] and [id] are the strings it holds under
    those keys, unchanged and unchecked against the enumeration, the
    date-time is what the validator of [created_datetime] makes of the
    value under that key, and [name] is the string or [None] given, or the
    empty string when the key is absent. *)
Theorem EntityMeta_holds_what_was_given
    {P : Platform} (obj : pyval) (m : EntityMeta.t) :
  EntityMeta.model_validate obj = Ok m ->
  exists data v,
    obj = PDict data
    /\ dict_get "created_datetime" data = Some v
    /\ MetaData.datetime_validator v = Ok (EntityMeta.created_datetime m)
    /\ dict_get "type" data = Some (PStr (EntityMeta.type m))
    /\ dict_get "id" data = Some (PStr (EntityMeta.id m))
    /\ optional_taken (dict_get "name" data) (EntityMeta.name m).
Proof.
  destruct obj as [| | | | | | data]; try discriminate.
  unfold EntityMeta.model_validate, EntityMeta.validate_fields. intros H.
  apply ap_Ok in H. destruct H as [f4 [i [H [Hid ->]]]].
  apply ap_Ok in H. destruct H as [f3 [n [H [Hname ->]]]].
  apply ap_Ok in H. destruct H as [f2 [ty [H [Hty ->]]]].
  apply ap_Ok in H. destruct H as [f1 [dt [H [Hdt ->]]]].
  injection H as <-.
  apply required_Ok in Hdt. destruct Hdt as [v [Hv Hdt]].
  exists data, v. simpl.
  repeat split; auto using str_field_Ok, optional_field_Ok.
Qed.

Lemma EntityMeta_holds_what_was_given_witness :
  EntityMeta.model_validate (P := utc_platform) (PDict assistant_kwargs) = Ok assistant
  /\ exists data v,
      PDict assistant_kwargs = PDict data
      /\ dict_get "created_datetime" data = Some v
      /\ MetaData.datetime_validator (P := utc_platform) v
         = Ok (EntityMeta.created_datetime assistant)
      /\ dict_get "type" data = Some (PStr (EntityMeta.type assistant))
      /\ dict_get "id" data = Some (PStr (EntityMeta.id assistant))
      /\ optional_taken (dict_get "name" data) (EntityMeta.name assistant).
Proof.
  split; [reflexivity|].
  exact (EntityMeta_holds_what_was_given (P := utc_platform)
           (PDict assistant_kwargs) assistant eq_refl).
Defined.

(** X9: A [SourceMeta] is only made from a mapping that gives
    [created_datetime] and [type]: when validation succeeds, [type] is the
    string held under that key, and [ref] and [url] are each the string or
    [None] given, or the empty string when the key is absent, whatever
    [type] is. *)
Theorem SourceMeta_holds_what_was_given
    {P : Platform} (obj : pyval) (m : SourceMeta.t) :
  SourceMeta.model_validate obj = Ok m ->
  exists data v,
    obj = PDict data
    /\ dict_get "created_datetime" data = Some v
    /\ MetaData.datetime_validator v = Ok (SourceMeta.created_datetime m)
    /\ dict_get "type" data = Some (PStr (SourceMeta.type m))
    /\ optional_taken (dict_get "ref" data) (SourceMeta.ref m)
    /\ optional_taken (dict_get "url" data) (SourceMeta.url m).
Proof.
  destruct obj as [| | | | | | data]; try discriminate.
  unfold SourceMeta.model_validate, SourceMeta.validate_fields. intros H.
  apply ap_Ok in H. destruct H as [f4 [u [H [Hurl ->]]]].
  apply ap_Ok in H. destruct H as [f3 [r [H [Href ->]]]].
  apply ap_Ok in H. destruct H as [f2 [ty [H [Hty ->]]]].
  apply ap_Ok in H. destruct H as [f1 [dt [H [Hdt ->]]]].
  injection H as <-.
  apply required_Ok in Hdt. destruct Hdt as [v [Hv Hdt]].
  exists data, v. simpl.
  repeat split; auto using str_field_Ok, optional_field_Ok.
Qed.

Lemma SourceMeta_holds_what_was_given_witness :
  SourceMeta.model_validate (P := utc_platform)
    (PDict [("type", PStr "website"); ("created_datetime", PDatetime new_year_2024)])
  = Ok (SourceMeta.mk new_year_2024 "website" (Some "") (Some ""))
  /\ optional_taken
       (dict_get "url"
          [("type", PStr "website"); ("created_datetime", PDatetime new_year_2024)])
       (Some "").
Proof.
  split; [reflexivity|].
  destruct (SourceMeta_holds_what_was_given (P := utc_platform)
              (PDict [("type", PStr "website");
                      ("created_datetime", PDatetime new_year_2024)])
              (SourceMeta.mk new_year_2024 "website" (Some "") (Some "")) eq_refl)
    as [data [v [Hobj [_ [_ [_ [_ Hurl]]]]]]].
  injection Hobj as <-. exact Hurl.
Defined.

(** X10: A [DataMeta] is only made from a mapping that gives all five fields:
    when validation succeeds, [type] is the string held under that key,
    and [owner], [creator] and [source] are what the validation of
    [EntityMeta], [EntityMeta] and [SourceMeta] makes of the values under
    those keys. *)
Theorem DataMeta_holds_what_was_given
    {P : Platform} (obj : pyval) (m : DataMeta.t) :
  DataMeta.model_validate obj = Ok m ->
  exists data v owner creator source,
    obj = PDict data
    /\ dict_get "created_datetime" data = Some v
    /\ MetaData.datetime_validator v = Ok (DataMeta.created_datetime m)
    /\ dict_get "type" data = Some (PStr (DataMeta.type m))
    /\ dict_get "owner" data = Some owner
    /\ EntityMeta.model_validate owner = Ok (DataMeta.owner m)
    /\ dict_get "creator" data = Some creator
    /\ EntityMeta.model_validate creator = Ok (DataMeta.creator m)
    /\ dict_get "source" data = Some source
    /\ SourceMeta.model_validate source = Ok (DataMeta.source m).
Proof.
  destruct obj as [| | | | | | data]; try discriminate.
  unfold DataMeta.model_validate, DataMeta.validate_fields. intros H.
  apply ap_Ok in H. destruct H as [f5 [src [H [Hsrc ->]]]].
  apply ap_Ok in H. destruct H as [f4 [cr [H [Hcr ->]]]].
  apply ap_Ok in H. destruct H as [f3 [ow [H [How ->]]]].
  apply ap_Ok in H. destruct H as [f2 [ty [H [Hty ->]]]].
  apply ap_Ok in H. destruct H as [f1 [dt [H [Hdt ->]]]].
  injection H as <-.
  apply required_Ok in Hdt. destruct Hdt as [v [Hv Hdt]].
  apply required_Ok in How. destruct How as [owner [How1 How2]].
  apply required_Ok in Hcr. destruct Hcr as [creator [Hcr1 Hcr2]].
  apply required_Ok in Hsrc. destruct Hsrc as [source [Hsrc1 Hsrc2]].
  exists data, v, owner, creator, source. simpl.
  repeat split; auto using str_field_Ok.
Qed.

Lemma DataMeta_holds_what_was_given_witness :
  DataMeta.model_validate (P := utc_platform)
    (PDict (DataMeta.model_dump (P := utc_platform) hello_meta))
  = Ok hello_meta
  /\ exists owner,
      dict_get "owner" (DataMeta.model_dump (P := utc_platform) hello_meta) = Some owner
      /\ EntityMeta.model_validate (P := utc_platform) owner = Ok NULL_ENTITY.
Proof.
  assert (H : DataMeta.model_validate (P := utc_platform)
                (PDict (DataMeta.model_dump (P := utc_platform) hello_meta))
              = Ok hello_meta) by (vm_compute; reflexivity).
  split; [exact H|].
  destruct (DataMeta_holds_what_was_given (P := utc_platform) _ _ H)
    as [data [v [owner [creator [source
         [Hobj [_ [_ [_ [Ho1 [Ho2 _]]]]]]]]]]].
  injection Hobj as <-. exists owner. split; [exact Ho1 | exact Ho2].
Defined.

(** X11: Validation reads the declared fields and nothing else: two mappings
    that hold the same values under the fields of a class construct the
    same record, or fail the same way, whatever other keys they hold and
    in whatever order. *)
Theorem construction_ignores_undeclared_keys
    {P : Platform} (cls : model_class) (kw1 kw2 : pydict) :
  (forall k, In k (class_fields cls) -> dict_get k kw1 = dict_get k kw2) ->
  construct cls kw1 = construct cls kw2.
Proof.
  intros H.
  destruct cls; unfold construct, MetaData.validate_fields,
    EntityMeta.validate_fields, SourceMeta.validate_fields,
    DataMeta.validate_fields, required, with_default;
    repeat match goal with
           | |- context [dict_get ?k kw1] =>
               rewrite (H k ltac:(simpl; tauto))
           end;
    reflexivity.
Qed.

Lemma construction_ignores_undeclared_keys_witness :
  (forall k, In k (class_fields EntityMetaClass) ->
             dict_get k assistant_kwargs_and_more = dict_get k assistant_kwargs)
  /\ construct (P := utc_platform) EntityMetaClass assistant_kwargs_and_more
     = Ok (OfEntityMeta assistant).
Proof.
  assert (H : forall k, In k (class_fields EntityMetaClass) ->
                dict_get k assistant_kwargs_and_more = dict_get k assistant_kwargs).
  { intros k Hk. simpl in Hk.
    destruct Hk as [<- | [<- | [<- | [<- | []]]]]; reflexivity. }
  split; [exact H|].
  rewrite (construction_ignores_undeclared_keys (P := utc_platform)
             EntityMetaClass assistant_kwargs_and_more assistant_kwargs H).
  reflexivity.
Defined.

(** * Further properties of the codec and the identifier *)

Section CodecFurther.
Context {P : Platform}.

Lemma datetime_validator_float_Ok (t : float) (d : datetime) :
  MetaData.datetime_validator (PFloat t) = Ok d ->
  fromtimestamp localtime t = Ok d.
Proof.
  unfold MetaData.datetime_validator. intros H.
  apply bind_Ok in H. destruct H as [v' [Hv' H]].
  apply in_validator_Ok in Hv'. simpl in Hv'.
  apply bind_Ok in Hv'. destruct Hv' as [d1 [Hf Hv']].
  injection Hv' as Hv'. subst v'. simpl in H. injection H as H. now subst d1.
Qed.

Lemma created_datetime_of_dump_Ok (f : float) (rest : pydict) (d : datetime) :
  required "created_datetime" MetaData.datetime_validator
    (("created_datetime", PFloat f) :: rest) = Ok d ->
  fromtimestamp localtime f = Ok d.
Proof.
  intros H. apply required_Ok in H. destruct H as [v [Hv Hval]].
  simpl in Hv. injection Hv as <-. now apply datetime_validator_float_Ok.
Qed.

Lemma EntityMeta_validate_dump_Ok (e e' : EntityMeta.t) :
  EntityMeta.model_validate (PDict (EntityMeta.model_dump e)) = Ok e' ->
  fromtimestamp localtime (MetaData.serialize_dt (EntityMeta.created_datetime e))
  = Ok (EntityMeta.created_datetime e')
  /\ EntityMeta.type e' = EntityMeta.type e
  /\ EntityMeta.name e' = EntityMeta.name e
  /\ EntityMeta.id e' = EntityMeta.id e.
Proof.
  intros H.
  assert (Hd : exists d,
             fromtimestamp localtime
               (MetaData.serialize_dt (EntityMeta.created_datetime e)) = Ok d).
  { unfold EntityMeta.model_validate, EntityMeta.validate_fields in H.
    apply ap_Ok in H. destruct H as [f4 [i [H _]]].
    apply ap_Ok in H. destruct H as [f3 [n [H _]]].
    apply ap_Ok in H. destruct H as [f2 [ty [H _]]].
    apply ap_Ok in H. destruct H as [f1 [dt [_ [Hdt _]]]].
    exists dt. exact (created_datetime_of_dump_Ok _ _ _ Hdt). }
  destruct Hd as [d Hd].
  rewrite (EntityMeta_validate_dump e d Hd) in H. injection H as <-.
  simpl. auto.
Qed.

Lemma SourceMeta_validate_dump_Ok (x x' : SourceMeta.t) :
  SourceMeta.model_validate (PDict (SourceMeta.model_dump x)) = Ok x' ->
  fromtimestamp localtime (MetaData.serialize_dt (SourceMeta.created_datetime x))
  = Ok (SourceMeta.created_datetime x')
  /\ SourceMeta.type x' = SourceMeta.type x
  /\ SourceMeta.ref x' = SourceMeta.ref x
  /\ SourceMeta.url x' = SourceMeta.url x.
Proof.
  intros H.
  assert (Hd : exists d,
             fromtimestamp localtime
               (MetaData.serialize_dt (SourceMeta.created_datetime x)) = Ok d).
  { unfold SourceMeta.model_validate, SourceMeta.validate_fields in H.
    apply ap_Ok in H. destruct H as [f4 [i [H _]]].
    apply ap_Ok in H. destruct H as [f3 [n [H _]]].
    apply ap_Ok in H. destruct H as [f2 [ty [H _]]].
    apply ap_Ok in H. destruct H as [f1 [dt [_ [Hdt _]]]].
    exists dt. exact (created_datetime_of_dump_Ok _ _ _ Hdt). }
  destruct Hd as [d Hd].
  rewrite (SourceMeta_validate_dump x d Hd) in H. injection H as <-.
  simpl. auto.
Qed.

Lemma Ok_inj {A} (x y : A) : Ok x = Ok y -> x = y.
Proof. intros H. now injection H. Qed.

Lemma optional_str_dump_inj (a b : option string) :
  optional_str_dump a = optional_str_dump b -> a = b.
Proof.
  destruct a, b; simpl; intros H; try discriminate; [|reflexivity].
  now injection H as ->.
Qed.

(** Two records with the same flat mapping have the same text fields and
    the same four timestamps. *)
Lemma flat_items_eq (a b : DataMeta.t) :
  flat_items a = flat_items b ->
  DataMeta.type a = DataMeta.type b
  /\ MetaData.serialize_dt (DataMeta.created_datetime a)
     = MetaData.serialize_dt (DataMeta.created_datetime b)
  /\ (MetaData.serialize_dt (EntityMeta.created_datetime (DataMeta.owner a))
      = MetaData.serialize_dt (EntityMeta.created_datetime (DataMeta.owner b))
      /\ EntityMeta.type (DataMeta.owner a) = EntityMeta.type (DataMeta.owner b)
      /\ EntityMeta.name (DataMeta.owner a) = EntityMeta.name (DataMeta.owner b)
      /\ EntityMeta.id (DataMeta.owner a) = EntityMeta.id (DataMeta.owner b))
  /\ (MetaData.serialize_dt (EntityMeta.created_datetime (DataMeta.creator a))
      = MetaData.serialize_dt (EntityMeta.created_datetime (DataMeta.creator b))
      /\ EntityMeta.type (DataMeta.creator a) = EntityMeta.type (DataMeta.creator b)
      /\ EntityMeta.name (DataMeta.creator a) = EntityMeta.name (DataMeta.creator b)
      /\ EntityMeta.id (DataMeta.creator a) = EntityMeta.id (DataMeta.creator b))
  /\ (MetaData.serialize_dt (SourceMeta.created_datetime (DataMeta.source a))
      = MetaData.serialize_dt (SourceMeta.created_datetime (DataMeta.source b))
      /\ SourceMeta.type (DataMeta.source a) = SourceMeta.type (DataMeta.source b)
      /\ SourceMeta.ref (DataMeta.source a) = SourceMeta.ref (DataMeta.source b)
      /\ SourceMeta.url (DataMeta.source a) = SourceMeta.url (DataMeta.source b)).
Proof.
  unfold flat_items. intros H.
  injection H as H1 H2 H3 H4 H5 H6 H7 H8 H9 H10 H11 H12 H13 H14.
  apply optional_str_dump_inj in H5, H9, H13, H14.
  repeat split; assumption.
Qed.

(** The JSON text of a record is made of its text fields and its four
    timestamps. *)
Lemma model_dump_json_of_flat_items (a b : DataMeta.t) :
  flat_items a = flat_items b ->
  DataMeta.model_dump_json a = DataMeta.model_dump_json b.
Proof.
  intros H. apply flat_items_eq in H.
  destruct H as [Hty [Hdt [[Ho1 [Ho2 [Ho3 Ho4]]] [[Hc1 [Hc2 [Hc3 Hc4]]]
                 [Hs1 [Hs2 [Hs3 Hs4]]]]]]].
  unfold DataMeta.model_dump_json, EntityMeta.model_dump_json,
    SourceMeta.model_dump_json.
  rewrite Hty, Hdt, Ho1, Ho2, Ho3, Ho4, Hc1, Hc2, Hc3, Hc4, Hs1, Hs2, Hs3, Hs4.
  reflexivity.
Qed.

End CodecFurther.


(** X13: Flattening loses nothing but what the timestamp loses: two records
    with the same flat mapping have the same [type], their owners,
    creators and sources have the same text fields, and their four
    date-times have the same timestamps. *)
Theorem same_flat_mapping_same_fields {P : Platform} (a b : DataMeta.t) :
  flatten a = flatten b ->
  DataMeta.type a = DataMeta.type b
  /\ EntityMeta.type (DataMeta.owner a) = EntityMeta.type (DataMeta.owner b)
  /\ EntityMeta.name (DataMeta.owner a) = EntityMeta.name (DataMeta.owner b)
  /\ EntityMeta.id (DataMeta.owner a) = EntityMeta.id (DataMeta.owner b)
  /\ EntityMeta.type (DataMeta.creator a) = EntityMeta.type (DataMeta.creator b)
  /\ EntityMeta.name (DataMeta.creator a) = EntityMeta.name (DataMeta.creator b)
  /\ EntityMeta.id (DataMeta.creator a) = EntityMeta.id (DataMeta.creator b)
  /\ SourceMeta.type (DataMeta.source a) = SourceMeta.type (DataMeta.source b)
  /\ SourceMeta.ref (DataMeta.source a) = SourceMeta.ref (DataMeta.source b)
  /\ SourceMeta.url (DataMeta.source a) = SourceMeta.url (DataMeta.source b)
  /\ timestamp localtime (DataMeta.created_datetime a)
     = timestamp localtime (DataMeta.created_datetime b)
  /\ timestamp localtime (EntityMeta.created_datetime (DataMeta.owner a))
     = timestamp localtime (EntityMeta.created_datetime (DataMeta.owner b))
  /\ timestamp localtime (EntityMeta.created_datetime (DataMeta.creator a))
     = timestamp localtime (EntityMeta.created_datetime (DataMeta.creator b))
  /\ timestamp localtime (SourceMeta.created_datetime (DataMeta.source a))
     = timestamp localtime (SourceMeta.created_datetime (DataMeta.source b)).
Proof.
  rewrite !flatten_flat_items. intros H. apply Ok_inj in H.
  apply flat_items_eq in H.
  destruct H as [Hty [Hdt [[Ho1 [Ho2 [Ho3 Ho4]]] [[Hc1 [Hc2 [Hc3 Hc4]]]
                 [Hs1 [Hs2 [Hs3 Hs4]]]]]]].
  repeat split; assumption.
Qed.

Lemma same_flat_mapping_same_fields_witness :
  flatten (P := utc_platform) hello_meta_utc = flatten (P := utc_platform) hello_meta
  /\ timestamp (@localtime utc_platform) new_year_2024_utc
     = timestamp (@localtime utc_platform) new_year_2024.
Proof.
  assert (H : flatten (P := utc_platform) hello_meta_utc
              = flatten (P := utc_platform) hello_meta)
    by (vm_compute; reflexivity).
  split; [exact H|].
  destruct (same_flat_mapping_same_fields (P := utc_platform)
              hello_meta_utc hello_meta H)
    as [_ [_ [_ [_ [_ [_ [_ [_ [_ [_ [Hts _]]]]]]]]]]].
  exact Hts.
Defined.

(** X14: The identifier follows the flat metadata: two records with the same
    flat mapping have the same identifier, so items that [add] submits
    with equal metadata are submitted under equal ids. *)
Theorem same_flat_mapping_same_identifier {P : Platform} (a b : DataMeta.t) :
  flatten a = flatten b ->
  meta_identifier (OfDataMeta a) = meta_identifier (OfDataMeta b).
Proof.
  rewrite !flatten_flat_items. intros H. apply Ok_inj in H.
  unfold meta_identifier, model_dump_json.
  rewrite (model_dump_json_of_flat_items a b H). reflexivity.
Qed.

Lemma same_flat_mapping_same_identifier_witness :
  flatten (P := utc_platform) hello_meta_utc = flatten (P := utc_platform) hello_meta
  /\ meta_identifier (P := utc_platform) (OfDataMeta hello_meta_utc)
     = meta_identifier (P := utc_platform) (OfDataMeta hello_meta).
Proof.
  assert (H : flatten (P := utc_platform) hello_meta_utc
              = flatten (P := utc_platform) hello_meta)
    by (vm_compute; reflexivity).
  split; [exact H|].
  exact (same_flat_mapping_same_identifier (P := utc_platform)
           hello_meta_utc hello_meta H).
Defined.

(** X15: What the round trip keeps and what it drops: whenever the flat mapping
    of a record reconstructs, the record that comes back has the same
    [type] and the same owner, creator and source text fields, and each of
    its four date-times is the naive value [datetime.fromtimestamp] makes
    of the original's timestamp: a time zone never comes back. *)
Theorem roundtrip_keeps_text_and_drops_time_zone
    {P : Platform} (m m' : DataMeta.t) (flat : pydict) :
  flatten m = Ok flat ->
  reconstruct flat = Ok m' ->
  DataMeta.type m' = DataMeta.type m
  /\ (EntityMeta.type (DataMeta.owner m') = EntityMeta.type (DataMeta.owner m)
      /\ EntityMeta.name (DataMeta.owner m') = EntityMeta.name (DataMeta.owner m)
      /\ EntityMeta.id (DataMeta.owner m') = EntityMeta.id (DataMeta.owner m))
  /\ (EntityMeta.type (DataMeta.creator m') = EntityMeta.type (DataMeta.creator m)
      /\ EntityMeta.name (DataMeta.creator m') = EntityMeta.name (DataMeta.creator m)
      /\ EntityMeta.id (DataMeta.creator m') = EntityMeta.id (DataMeta.creator m))
  /\ (SourceMeta.type (DataMeta.source m') = SourceMeta.type (DataMeta.source m)
      /\ SourceMeta.ref (DataMeta.source m') = SourceMeta.ref (DataMeta.source m)
      /\ SourceMeta.url (DataMeta.source m') = SourceMeta.url (DataMeta.source m))
  /\ (fromtimestamp localtime (timestamp localtime (DataMeta.created_datetime m))
      = Ok (DataMeta.created_datetime m')
      /\ tzinfo (DataMeta.created_datetime m') = None)
  /\ tzinfo (EntityMeta.created_datetime (DataMeta.owner m')) = None
  /\ tzinfo (EntityMeta.created_datetime (DataMeta.creator m')) = None
  /\ tzinfo (SourceMeta.created_datetime (DataMeta.source m')) = None.
Proof.
  rewrite flatten_flat_items. intros Hflat Hrec. apply Ok_inj in Hflat. subst flat.
  unfold reconstruct in Hrec. rewrite unflatten_flat_items in Hrec.
  simpl bind in Hrec.
  unfold DataMeta.model_validate, DataMeta.validate_fields in Hrec.
  apply ap_Ok in Hrec. destruct Hrec as [f5 [src [H [Hsrc ->]]]].
  apply ap_Ok in H. destruct H as [f4 [cr [H [Hcr ->]]]].
  apply ap_Ok in H. destruct H as [f3 [ow [H [How ->]]]].
  apply ap_Ok in H. destruct H as [f2 [ty [H [Hty ->]]]].
  apply ap_Ok in H. destruct H as [f1 [dt [H [Hdt ->]]]].
  injection H as <-.
  apply created_datetime_of_dump_Ok in Hdt.
  apply str_field_Ok in Hty. simpl in Hty. injection Hty as Hty.
  apply required_Ok in How. destruct How as [vo [Hvo How]].
  simpl in Hvo. injection Hvo as <-.
  apply EntityMeta_validate_dump_Ok in How.
  apply required_Ok in Hcr. destruct Hcr as [vc [Hvc Hcr]].
  simpl in Hvc. injection Hvc as <-.
  apply EntityMeta_validate_dump_Ok in Hcr.
  apply required_Ok in Hsrc. destruct Hsrc as [vs [Hvs Hsrc]].
  simpl in Hvs. injection Hvs as <-.
  apply SourceMeta_validate_dump_Ok in Hsrc.
  destruct How as [Hod [Ho1 [Ho2 Ho3]]].
  destruct Hcr as [Hcd [Hc1 [Hc2 Hc3]]].
  destruct Hsrc as [Hsd [Hs1 [Hs2 Hs3]]].
  simpl. repeat split; auto;
    eauto using fromtimestamp_naive.
Qed.

Lemma roundtrip_keeps_text_and_drops_time_zone_witness :
  exists flat m',
    flatten (P := utc_platform) hello_meta_utc = Ok flat
    /\ reconstruct (P := utc_platform) flat = Ok m'
    /\ DataMeta.type m' = "content"
    /\ tzinfo (DataMeta.created_datetime m') = None.
Proof.
  exists (flat_items (P := utc_platform) hello_meta_utc), hello_meta.
  assert (Hf : flatten (P := utc_platform) hello_meta_utc
               = Ok (flat_items (P := utc_platform) hello_meta_utc))
    by reflexivity.
  assert (Hr : reconstruct (P := utc_platform)
                 (flat_items (P := utc_platform) hello_meta_utc) = Ok hello_meta)
    by (vm_compute; reflexivity).
  split; [exact Hf|]. split; [exact Hr|].
  pose proof (roundtrip_keeps_text_and_drops_time_zone (P := utc_platform)
                hello_meta_utc hello_meta _ Hf Hr) as H.
  split; [exact (proj1 H) | exact (proj2 (proj1 (proj2 (proj2 (proj2 (proj2 H))))))].
Defined.






(** * Further properties of failing validation *)

Section Failing.
Context {P : Platform}.















End Failing.


